(** * Djassa Coach: the transaction auto-recording pipeline of the chat endpoint

    A shallow embedding of [Backend/gemini_service.py]
    ([detect_transaction_intent], [format_fcfa]) and of the auto-recording
    part of [chatbot_message] in [Backend/main.py], with the properties of
    the specification stated over it; then of the endpoints of
    [Backend/main.py] that write the same ledgers ([update_stock],
    [delete_produit], [create_vente], [delete_vente], [payer_dette]) and
    of the PIN check of [login], with properties of their own.

    Conventions of the embedding.
    - Python values decoded from JSON are the inductive [pyval]; a Python
      [int] is a [Z]; a finite [float] is represented by the rational it
      denotes, next to [nan] and the two infinities.
    - A Python or SQL string is the [string] of its UTF-8 bytes. [len]
      and the slices count characters, not bytes. [lower] is Python's
      [str.lower()] on text whose characters lie below U+0100 (ASCII and
      Latin-1, which covers the accented capitals of French); SQLite's
      [lower(X)] and [LIKE] fold the ASCII letters only, and [_] in a
      pattern stands for one character. [strip] removes the white space
      of ASCII; the group that the extractor decodes does not depend on
      what is stripped ([fences_do_not_change_the_group]).
    - A table is the list of its rows in the order the engine iterates them.
    - A raised exception is the [Raise] constructor of [outcome]; the
      SQLAlchemy session is a pair of the stored database and the unit of
      work, and [db_commit] is the only operation that changes the former.
      An INTEGER column holds a signed 64-bit value: a commit that has to
      bind an integer outside that range raises [OverflowError] and stores
      nothing. No other failure of the storage engine is modelled.
    - Columns are read as values; NULL is kept for [deleted_at] only.
    - The language model, [json.loads] and the texts of the two prompts
      are parameters; building the API client does not raise.
    - The embedding of [chatbot_message] runs from the initialisation of
      [transaction_recorded] to the composition of [result]; the chat
      log written afterwards is not part of it, and the [chat_logs] table
      is only read, by the abuse guard. *)

From Stdlib Require Import ZArith QArith List String Ascii Bool Lia.
From Stdlib Require Import DecimalString.
Import ListNotations.

Set Warnings "-register-all".
Open Scope string_scope.
Open Scope Z_scope.

(** ** Exceptions and fallible computations *)

Inductive exn : Type :=
| TypeError
| AttributeError
| ValueError
| OverflowError
| JSONDecodeError (msg : string)
| APIError (msg : string).

Inductive outcome (A : Type) : Type :=
| Ok (a : A)
| Raise (e : exn).

Arguments Ok {A} a.
Arguments Raise {A} e.

Definition bind {A B : Type} (m : outcome A) (k : A -> outcome B) : outcome B :=
  match m with
  | Ok a => k a
  | Raise e => Raise e
  end.

Declare Scope py_scope.
Delimit Scope py_scope with py.
Notation "x <- m ;; k" := (bind m (fun x => k))
  (at level 61, m at next level, right associativity) : py_scope.
Open Scope py_scope.

(** [str(e)] of an exception, as stored under the "error" key. *)
Definition str_exn (e : exn) : string :=
  match e with
  | TypeError => "TypeError"
  | AttributeError => "AttributeError"
  | ValueError => "ValueError"
  | OverflowError => "OverflowError"
  | JSONDecodeError msg => msg
  | APIError msg => msg
  end.

(** ** Python values *)

Inductive pyfloat : Type :=
| FNan
| FInf (negative : bool)
| FFin (q : Q).

Inductive pyval : Type :=
| PyNone
| PyBool (b : bool)
| PyInt (n : Z)
| PyFloat (f : pyfloat)
| PyStr (s : string)
| PyList (l : list pyval)
| PyDict (kv : list (string * pyval)).

Definition pydict : Type := list (string * pyval).

(** [d.get(k)] on the items of a dict; [None] when the key is absent. *)
Fixpoint dict_lookup (k : string) (d : pydict) : option pyval :=
  match d with
  | [] => None
  | (k', v) :: d' => if String.eqb k k' then Some v else dict_lookup k d'
  end.

Definition dict_get (d : pydict) (k : string) : pyval :=
  match dict_lookup k d with
  | Some v => v
  | None => PyNone
  end.

Definition dict_get_default (d : pydict) (k : string) (dflt : pyval) : pyval :=
  match dict_lookup k d with
  | Some v => v
  | None => dflt
  end.

(** [d[k] = v]: overwrite in place, or append a new key. *)
Fixpoint dict_set (d : pydict) (k : string) (v : pyval) : pydict :=
  match d with
  | [] => [(k, v)]
  | (k', v') :: d' =>
      if String.eqb k k' then (k', v) :: d' else (k', v') :: dict_set d' k v
  end.

(** The [.get] attribute exists on dicts only. *)
Definition as_dict (v : pyval) : outcome pydict :=
  match v with
  | PyDict kv => Ok kv
  | _ => Raise AttributeError
  end.

Definition float_truthy (f : pyfloat) : bool :=
  match f with
  | FNan => true
  | FInf _ => true
  | FFin q => negb (Qeq_bool q 0)
  end.

(** Truth value testing, [bool(v)]. *)
Definition truthy (v : pyval) : bool :=
  match v with
  | PyNone => false
  | PyBool b => b
  | PyInt n => negb (n =? 0)
  | PyFloat f => float_truthy f
  | PyStr s => negb (String.eqb s "")
  | PyList l => match l with [] => false | _ => true end
  | PyDict kv => match kv with [] => false | _ => true end
  end.

(** [v or dflt] *)
Definition py_or (v dflt : pyval) : pyval :=
  if truthy v then v else dflt.

Definition isinstance_str (v : pyval) : bool :=
  match v with
  | PyStr _ => true
  | _ => false
  end.

(** [isinstance(v, (int, float))]; [bool] is a subclass of [int]. *)
Definition isinstance_number (v : pyval) : bool :=
  match v with
  | PyBool _ | PyInt _ | PyFloat _ => true
  | _ => false
  end.

Definition float_ge (f : pyfloat) (c : Q) : bool :=
  match f with
  | FNan => false
  | FInf negative => negb negative
  | FFin q => Qle_bool c q
  end.

(** [v >= c] for a numeric literal [c]; ordering a non-number against a
    number raises [TypeError]. *)
Definition py_ge (v : pyval) (c : Q) : outcome bool :=
  match v with
  | PyBool b => Ok (Qle_bool c (inject_Z (Z.b2z b)))
  | PyInt n => Ok (Qle_bool c (inject_Z n))
  | PyFloat f => Ok (float_ge f c)
  | _ => Raise TypeError
  end.

(** [int(v)]: truncation toward zero. *)
Definition py_int (v : pyval) : outcome Z :=
  match v with
  | PyBool b => Ok (Z.b2z b)
  | PyInt n => Ok n
  | PyFloat FNan => Raise ValueError
  | PyFloat (FInf _) => Raise OverflowError
  | PyFloat (FFin q) => Ok (Z.quot (Qnum q) (Z.pos (Qden q)))
  | _ => Raise TypeError
  end.

(** ** Strings *)

(** A byte of the form 10xxxxxx continues the character begun before it. *)
Definition is_continuation (c : ascii) : bool :=
  let n := nat_of_ascii c in
  ((128 <=? n) && (n <=? 191))%nat.

(** The number of characters: the bytes that begin one. *)
Fixpoint chars (s : string) : nat :=
  match s with
  | EmptyString => O
  | String c s' => if is_continuation c then chars s' else S (chars s')
  end.

(** [len(s)] *)
Definition len (s : string) : Z := Z.of_nat (chars s).

(** The rest of the bytes of a character whose first byte has been read. *)
Fixpoint skip_continuation (s : string) : string :=
  match s with
  | EmptyString => EmptyString
  | String c s' => if is_continuation c then skip_continuation s' else s
  end.

(** [s[n:]] *)
Fixpoint str_drop (n : nat) (s : string) : string :=
  match n with
  | O => s
  | S n' =>
      match s with
      | EmptyString => EmptyString
      | String _ s' => str_drop n' (skip_continuation s')
      end
  end.

(** [s[:n]] *)
Fixpoint str_take (n : nat) (s : string) : string :=
  match s with
  | EmptyString => EmptyString
  | String c s' =>
      if is_continuation c then String c (str_take n s')
      else match n with
           | O => EmptyString
           | S n' => String c (str_take n' s')
           end
  end.

(** Offsets in bytes, as found by a search in the bytes. *)
Fixpoint drop_bytes (n : nat) (s : string) : string :=
  match n, s with
  | O, _ => s
  | S n', EmptyString => EmptyString
  | S n', String _ s' => drop_bytes n' s'
  end.

Definition take_bytes (n : nat) (s : string) : string := substring 0 n s.

Definition startswith (p s : string) : bool := String.prefix p s.

Definition endswith (p s : string) : bool :=
  (String.length p <=? String.length s)%nat
  && String.eqb (drop_bytes (String.length s - String.length p) s) p.

(** The white space of ASCII: tab to carriage return, the four
    separators and the space. *)
Definition is_space (c : ascii) : bool :=
  let n := nat_of_ascii c in
  ((9 <=? n) && (n <=? 13) || (28 <=? n) && (n <=? 32))%nat.

Fixpoint lstrip (s : string) : string :=
  match s with
  | EmptyString => EmptyString
  | String c s' => if is_space c then lstrip s' else s
  end.

Fixpoint rstrip (s : string) : string :=
  match s with
  | EmptyString => EmptyString
  | String c s' =>
      match rstrip s' with
      | EmptyString => if is_space c then EmptyString else String c EmptyString
      | r => String c r
      end
  end.

(** [s.strip()] *)
Definition strip (s : string) : string := rstrip (lstrip s).

Definition lower_ascii (c : ascii) : ascii :=
  let n := nat_of_ascii c in
  if ((65 <=? n) && (n <=? 90))%nat then ascii_of_nat (n + 32) else c.

(** SQLite's [lower(X)]: the ASCII letters only. *)
Fixpoint sql_lower (s : string) : string :=
  match s with
  | EmptyString => EmptyString
  | String c s' => String (lower_ascii c) (sql_lower s')
  end.

(** The lower case of a byte that follows the byte [lead]. The capitals
    U+00C0 to U+00DE, the sign U+00D7 apart, are the two bytes C3 80 to
    C3 9E, and their small letters lie 32 further. *)
Definition lower_byte (lead c : ascii) : ascii :=
  let n := nat_of_ascii c in
  if (Ascii.eqb lead (ascii_of_nat 195)
      && (128 <=? n) && (n <=? 158) && negb (n =? 151))%nat
  then ascii_of_nat (n + 32)
  else lower_ascii c.

Fixpoint lower_after (lead : ascii) (s : string) : string :=
  match s with
  | EmptyString => EmptyString
  | String c s' => String (lower_byte lead c) (lower_after c s')
  end.

(** [s.lower()] *)
Definition lower (s : string) : string := lower_after Ascii.zero s.

Fixpoint find_char (c : ascii) (s : string) : option nat :=
  match s with
  | EmptyString => None
  | String d s' =>
      if Ascii.eqb d c then Some O
      else match find_char c s' with
           | Some i => Some (S i)
           | None => None
           end
  end.

Fixpoint rfind_char (c : ascii) (s : string) : option nat :=
  match s with
  | EmptyString => None
  | String d s' =>
      match rfind_char c s' with
      | Some i => Some (S i)
      | None => if Ascii.eqb d c then Some O else None
      end
  end.

(** [re.search(r'\{.*\}', s, re.DOTALL)]: the leftmost opening brace up to
    the last closing brace after it; [.group()] of the match. *)
Definition search_braces (s : string) : option string :=
  match find_char "{"%char s with
  | None => None
  | Some i =>
      let rest := drop_bytes i s in
      match rfind_char "}"%char rest with
      | None => None
      | Some j => Some (take_bytes (S j) rest)
      end
  end.

Fixpoint skip_continuation_bytes (s : list ascii) : list ascii :=
  match s with
  | [] => []
  | c :: s' => if is_continuation c then skip_continuation_bytes s' else s
  end.

(** SQLite's [LIKE]: [%] matches any run of characters, [_] exactly one
    character with all its bytes, any other byte itself up to ASCII case;
    there is no escape character unless an ESCAPE clause is given. *)
Fixpoint like_chars (p : list ascii) : list ascii -> bool :=
  match p with
  | [] => fun s => match s with [] => true | _ => false end
  | c :: p' =>
      if Ascii.eqb c "%"%char then
        fix skip (s : list ascii) : bool :=
          like_chars p' s
          || match s with
             | [] => false
             | _ :: s' => skip s'
             end
      else if Ascii.eqb c "_"%char then
        fun s =>
          match s with
          | [] => false
          | _ :: s' => like_chars p' (skip_continuation_bytes s')
          end
      else
        fun s =>
          match s with
          | [] => false
          | d :: s' =>
              Ascii.eqb (lower_ascii c) (lower_ascii d) && like_chars p' s'
          end
  end.

Definition sql_like (value pattern : string) : bool :=
  like_chars (list_ascii_of_string pattern) (list_ascii_of_string value).

(** ** Number formatting *)

(** [str(n)] for an int. *)
Definition str_int (n : Z) : string := NilZero.string_of_int (Z.to_int n).

Fixpoint group3 (rev_digits : list ascii) : list ascii :=
  match rev_digits with
  | a :: b :: c :: ((_ :: _) as more) => a :: b :: c :: ","%char :: group3 more
  | _ => rev_digits
  end.

(** [f"{n:,}"] *)
Definition format_comma (n : Z) : string :=
  let digits := list_ascii_of_string (str_int (Z.abs n)) in
  let grouped := string_of_list_ascii (rev (group3 (rev digits))) in
  if n <? 0 then "-" ++ grouped else grouped.

Fixpoint replace_char (a b : ascii) (s : string) : string :=
  match s with
  | EmptyString => EmptyString
  | String c s' => String (if Ascii.eqb c a then b else c) (replace_char a b s')
  end.

Definition format_fcfa (montant : Z) : string :=
  let formatted := replace_char ","%char " "%char (format_comma montant) in
  formatted ++ " FCFA".

(** ** Lazily evaluated tests *)

(** [a and b] where evaluating [b] may raise: [b] is not evaluated when
    [a] is false. *)
Definition and_then (a : bool) (b : outcome bool) : outcome bool :=
  if a then b else Ok false.

Infix "&&&" := and_then (at level 40, left associativity) : py_scope.

(** [len(v)] *)
Definition py_len (v : pyval) : outcome Z :=
  match v with
  | PyStr s => Ok (len s)
  | PyList l => Ok (Z.of_nat (List.length l))
  | PyDict kv => Ok (Z.of_nat (List.length kv))
  | _ => Raise TypeError
  end.

(** [len(v) >= n] *)
Definition py_len_ge (v : pyval) (n : Z) : outcome bool :=
  l <- py_len v ;; Ok (n <=? l).

(** The characters of a value already known to be a [str]. *)
Definition as_str (v : pyval) : outcome string :=
  match v with
  | PyStr s => Ok s
  | _ => Raise TypeError
  end.

(** [v.lower()] *)
Definition py_lower (v : pyval) : outcome string :=
  match v with
  | PyStr s => Ok (lower s)
  | _ => Raise AttributeError
  end.

(** [v + s] for a [str] right operand. *)
Definition py_add_str (v : pyval) (s : string) : outcome pyval :=
  match v with
  | PyStr a => Ok (PyStr (a ++ s))
  | _ => Raise TypeError
  end.

Definition newline : string := String (ascii_of_nat 10) EmptyString.

(** ** The data model ([Backend/models.py]) *)

(** Instants and durations are counted in microseconds, the resolution of
    [datetime]. *)
Definition timedelta_minutes (n : Z) : Z := n * 60 * 1000000.

Record Produit : Type := mkProduit {
  p_id : string;
  p_boutique_id : string;
  p_nom : string;
  p_prix_unitaire : Z;
  p_quantite_stock : Z;
  p_active : bool;
  p_deleted_at : option Z
}.

Record Vente : Type := mkVente {
  v_id : string;
  v_boutique_id : string;
  v_produit_id : string;
  v_quantite : Z;
  v_prix_unitaire : Z;
  v_montant_total : Z;
  v_mode_paiement : string;
  v_date_vente : Z;
  v_deleted_at : option Z
}.

Record Depense : Type := mkDepense {
  dp_id : string;
  dp_boutique_id : string;
  dp_categorie : string;
  dp_montant : Z;
  dp_description : string;
  dp_date_depense : Z;
  dp_deleted_at : option Z
}.

Record Dette : Type := mkDette {
  dt_id : string;
  dt_boutique_id : string;
  dt_nom_client : string;
  dt_montant_initial : Z;
  dt_montant_restant : Z;
  dt_date_creation : Z;
  dt_statut : string;
  dt_rappels_envoyes : Z;
  dt_deleted_at : option Z
}.

(** The [new_values] column holds the JSON text of a dict; the row keeps
    the dict itself. *)
Record AuditLog : Type := mkAuditLog {
  al_id : string;
  al_boutique_id : string;
  al_action : string;
  al_table_name : string;
  al_record_id : string;
  al_old_values : option pydict;
  al_new_values : option pydict;
  al_ip_address : string;
  al_created_at : Z
}.

Record ChatLog : Type := mkChatLog {
  cl_id : string;
  cl_boutique_id : string;
  cl_user_message : string;
  cl_bot_response : string;
  cl_success : bool;
  cl_ip_address : string;
  cl_created_at : Z
}.

Record Database : Type := mkDatabase {
  produits : list Produit;
  ventes : list Vente;
  depenses : list Depense;
  dettes : list Dette;
  audit_logs : list AuditLog;
  chat_logs : list ChatLog
}.

(** ** The session ([Backend/database.py]: autocommit and autoflush off) *)

Record Session : Type := mkSession {
  stored : Database;
  work : Database
}.

Definition on_work (f : Database -> Database) (s : Session) : Session :=
  {| stored := stored s; work := f (work s) |}.

(** An INTEGER of the storage engine: a signed 64-bit value. *)
Definition sqlite_integer (n : Z) : bool :=
  (- 2 ^ 63 <=? n) && (n <? 2 ^ 63).

(** The session once its unit of work has reached the database. *)
Definition flushed (s : Session) : Session :=
  {| stored := work s; work := work s |}.

(** [db.commit()]: the unit of work is flushed and reaches the database in
    one transaction. [bound] lists the integers that the flush binds to
    its statements; the driver raises [OverflowError] on one that does
    not fit an INTEGER, the transaction is rolled back, and nothing is
    stored. *)
Definition db_commit (bound : list Z) (s : Session) : outcome Session :=
  if forallb sqlite_integer bound then Ok (flushed s)
  else Raise OverflowError.

Definition db_add_vente (v : Vente) : Session -> Session :=
  on_work (fun d => {| produits := produits d; ventes := ventes d ++ [v];
                       depenses := depenses d; dettes := dettes d;
                       audit_logs := audit_logs d; chat_logs := chat_logs d |}).

Definition db_add_depense (x : Depense) : Session -> Session :=
  on_work (fun d => {| produits := produits d; ventes := ventes d;
                       depenses := depenses d ++ [x]; dettes := dettes d;
                       audit_logs := audit_logs d; chat_logs := chat_logs d |}).

Definition db_add_dette (x : Dette) : Session -> Session :=
  on_work (fun d => {| produits := produits d; ventes := ventes d;
                       depenses := depenses d; dettes := dettes d ++ [x];
                       audit_logs := audit_logs d; chat_logs := chat_logs d |}).

Definition db_add_audit (x : AuditLog) : Session -> Session :=
  on_work (fun d => {| produits := produits d; ventes := ventes d;
                       depenses := depenses d; dettes := dettes d;
                       audit_logs := audit_logs d ++ [x];
                       chat_logs := chat_logs d |}).

Definition with_stock (p : Produit) (q : Z) : Produit :=
  {| p_id := p_id p; p_boutique_id := p_boutique_id p; p_nom := p_nom p;
     p_prix_unitaire := p_prix_unitaire p; p_quantite_stock := q;
     p_active := p_active p; p_deleted_at := p_deleted_at p |}.

Definition update_stock (id : string) (q : Z) (rows : list Produit)
    : list Produit :=
  map (fun p => if String.eqb (p_id p) id then with_stock p q else p) rows.

(** Assignment to [produit.quantite_stock] of a loaded row: at flush it is
    an UPDATE of the row with that primary key. *)
Definition set_quantite_stock (id : string) (q : Z) : Session -> Session :=
  on_work (fun d =>
    {| produits := update_stock id q (produits d);
       ventes := ventes d; depenses := depenses d; dettes := dettes d;
       audit_logs := audit_logs d; chat_logs := chat_logs d |}).

(** What a request carries besides the database: the body fields, the
    account, the peer address, the clock and the identifiers that
    [generate_uuid] draws for the rows written in this turn. *)
Record Request : Type := mkRequest {
  message : string;
  language : string;
  auto_record_transactions : bool;
  boutique_id : string;
  client_host : string;
  utcnow : Z;
  row_uuid : string;
  audit_uuid : string
}.

(** [AuditLog(...)] in [log_audit], with [old_values = None]. *)
Definition new_audit (req : Request) (action table_name record_id : string)
    (new_values : pydict) : AuditLog :=
  {| al_id := audit_uuid req; al_boutique_id := boutique_id req;
     al_action := action; al_table_name := table_name;
     al_record_id := record_id; al_old_values := None;
     al_new_values := if truthy (PyDict new_values)
                      then Some new_values else None;
     al_ip_address := client_host req; al_created_at := utcnow req |}.

(** [log_audit] of [main.py] with [old_values = None]; an audit row has
    no INTEGER column. *)
Definition log_audit (req : Request) (action table_name record_id : string)
    (new_values : pydict) (s : Session) : outcome Session :=
  let audit := new_audit req action table_name record_id new_values in
  db_commit [] (db_add_audit audit s).

(** ** Intent extraction ([Backend/gemini_service.py]) *)

(** The entries of [produits_for_detection]. *)
Record produit_entry : Type := mkEntry {
  e_id : string;
  e_nom : string;
  e_prix_unitaire : Z;
  e_quantite_stock : Z
}.

(** [client.models.generate_content(model, contents).text]: the call
    raises, or answers with a text that may be [None]. *)
Definition Client : Type := string -> outcome (option string).

Definition no_transaction : pyval :=
  PyDict [("has_transaction", PyBool false)].

Definition no_transaction_error (msg : string) : pyval :=
  PyDict [("has_transaction", PyBool false); ("error", PyStr msg)].

Section Extraction.

(** [json.loads]: a value, or [JSONDecodeError]. *)
Variable json_loads : string -> outcome pyval.

(** The two prompt templates, as functions of the message and of the
    product list that the f-strings interpolate. *)
Variable prompt_en prompt_fr : string -> string -> string.

(** [get_client()]: [None] without GOOGLE_API_KEY. *)
Variable get_client : option Client.

Definition strip_fences (text : string) : string :=
  let text := if startswith "```json" text then str_drop 7 text else text in
  let text := if startswith "```" text then str_drop 3 text else text in
  if endswith "```" text then str_take (chars text - 3) text
  else text.

(** [json_match.group()] for a response text, [None] without a match. *)
Definition json_group (response_text : option string) : option string :=
  let text := strip (match response_text with
                     | Some t => t
                     | None => ""
                     end) in
  let text := strip_fences text in
  search_braces text.

(** The body of the [try] block. *)
Definition extract_intent (client : Client) (prompt : string)
    : outcome pyval :=
  response_text <- client prompt ;;
  match json_group response_text with
  | Some group => result <- json_loads group ;; Ok result
  | None => Ok no_transaction
  end.

Definition intent_prompt (message : string) (produits : list produit_entry)
    (language : string) : string :=
  let produits_list :=
    String.concat ", "
      (map (fun p => e_nom p ++ " (" ++ str_int (e_prix_unitaire p)
                     ++ " FCFA)")
           (firstn 30 produits)) in
  let is_english := String.eqb language "en" in
  if is_english then prompt_en message produits_list
  else prompt_fr message produits_list.

Definition detect_transaction_intent (message : string)
    (produits : list produit_entry) (language : string) : outcome pyval :=
  match get_client with
  | None => Ok (no_transaction_error "API not configured")
  | Some client =>
      let prompt := intent_prompt message produits language in
      match extract_intent client prompt with
      | Ok result => Ok result
      | Raise e => Ok (no_transaction_error (str_exn e))
      end
  end.

End Extraction.

(** ** The auto-recording block of [chatbot_message] ([Backend/main.py]) *)

(** The literal [0.8] is the double nearest to 4/5. *)
Definition confidence_threshold : Q :=
  3602879701896397 # 4503599627370496.

(** The local variables of the block. *)
Record Turn : Type := mkTurn {
  t_db : Session;
  t_result : pydict;
  t_transaction_recorded : option pydict;
  t_auto_tx_feedback : option string
}.

Definition set_feedback (msg : string) (t : Turn) : Turn :=
  {| t_db := t_db t; t_result := t_result t;
     t_transaction_recorded := t_transaction_recorded t;
     t_auto_tx_feedback := Some msg |}.

(** A committed transaction: the session after the writes, the descriptor
    and the reply that replaces the conversational one. *)
Definition set_recorded (s : Session) (descriptor : pydict)
    (response : string) (t : Turn) : Turn :=
  {| t_db := s;
     t_result := dict_set (t_result t) "response" (PyStr response);
     t_transaction_recorded := Some descriptor;
     t_auto_tx_feedback := t_auto_tx_feedback t |}.

(** The rows counted by the guard: chat logs of the account, not older
    than five minutes, whose reply carries a confirmation marker. *)
Definition is_recent_auto_tx (boutique : string) (five_minutes_ago : Z)
    (c : ChatLog) : bool :=
  String.eqb (cl_boutique_id c) boutique
  && (five_minutes_ago <=? cl_created_at c)
  && (sql_like (cl_bot_response c) "%enregistrée:%"
      || sql_like (cl_bot_response c) "%recorded:%").

Definition recent_auto_tx_count (req : Request) (s : Session) : Z :=
  let five_minutes_ago := utcnow req - timedelta_minutes 5 in
  Z.of_nat (List.length
    (filter (is_recent_auto_tx (boutique_id req) five_minutes_ago)
            (chat_logs (stored s)))).

Definition is_catalog_row (boutique : string) (p : Produit) : bool :=
  String.eqb (p_boutique_id p) boutique
  && p_active p
  && match p_deleted_at p with None => true | Some _ => false end.

Definition produits_for_detection (req : Request) (s : Session)
    : list produit_entry :=
  map (fun p => {| e_id := p_id p; e_nom := p_nom p;
                   e_prix_unitaire := p_prix_unitaire p;
                   e_quantite_stock := p_quantite_stock p |})
      (firstn 30 (filter (is_catalog_row (boutique_id req))
                         (produits (stored s)))).

(** The product query of the sale branch: the first row of the account,
    active and not deleted, whose lowered name is LIKE the lowered
    extracted name between two [%]. *)
Definition find_produit (boutique : string) (nom_lower : string)
    (s : Session) : option Produit :=
  find (fun p => String.eqb (p_boutique_id p) boutique
                 && sql_like (sql_lower (p_nom p)) ("%" ++ nom_lower ++ "%")
                 && p_active p
                 && match p_deleted_at p with None => true | Some _ => false end)
       (produits (stored s)).

(** [Vente(...)], with the defaults of the columns left out. *)
Definition new_vente (req : Request) (produit : Produit) (quantite : Z)
    : Vente :=
  let montant_total := quantite * p_prix_unitaire produit in
  {| v_id := row_uuid req; v_boutique_id := boutique_id req;
     v_produit_id := p_id produit; v_quantite := quantite;
     v_prix_unitaire := p_prix_unitaire produit;
     v_montant_total := montant_total;
     v_mode_paiement := "especes";
     v_date_vente := utcnow req; v_deleted_at := None |}.

(** [tx_msg] of a recorded sale. *)
Definition vente_message (is_english : bool) (produit : Produit)
    (quantite : Z) : string :=
  let montant_total := quantite * p_prix_unitaire produit in
  (if negb is_english then "Vente enregistrée: " else "Sale recorded: ")
  ++ str_int quantite ++ "x " ++ p_nom produit ++ " = "
  ++ format_fcfa montant_total.

(** The descriptor of a recorded sale. *)
Definition vente_recorded (is_english : bool) (produit : Produit)
    (quantite : Z) : pydict :=
  let montant_total := quantite * p_prix_unitaire produit in
  let tx_msg := vente_message is_english produit quantite in
  [("type", PyStr "vente");
   ("details", PyDict [("produit", PyStr (p_nom produit));
                       ("quantite", PyInt quantite);
                       ("montant", PyInt montant_total)]);
   ("success", PyBool true);
   ("message", PyStr tx_msg)].

(** The reply that confirms a recorded sale. *)
Definition vente_response (is_english : bool) (produit : Produit)
    (quantite : Z) : string :=
  (if negb is_english then "C'est noté ! " else "Got it! ")
  ++ vente_message is_english produit quantite ++ " 💪".

(** [new_values] of the audit row of a recorded sale. *)
Definition vente_audit (produit : Produit) (quantite : Z) : pydict :=
  [("source", PyStr "cecile");
   ("produit", PyStr (p_nom produit));
   ("quantite", PyInt quantite)].

(** The integers bound by the flush of a sale: the new stock in the
    UPDATE of the product, and the three INTEGER columns of the INSERT. *)
Definition vente_bound (produit : Produit) (vente : Vente) : list Z :=
  [p_quantite_stock produit - v_quantite vente;
   v_quantite vente; v_prix_unitaire vente; v_montant_total vente].

(** The body of [if produit and produit.quantite_stock >= quantite:]. *)
Definition commit_vente (req : Request) (is_english : bool)
    (produit : Produit) (quantite : Z) (t : Turn) : outcome Turn :=
  let vente := new_vente req produit quantite in
  let s := set_quantite_stock (p_id produit)
             (p_quantite_stock produit - quantite) (t_db t) in
  let s := db_add_vente vente s in
  s <- db_commit (vente_bound produit vente) s ;;
  s <- log_audit req "create_auto" "ventes" (v_id vente)
         (vente_audit produit quantite) s ;;
  Ok (set_recorded s (vente_recorded is_english produit quantite)
        (vente_response is_english produit quantite) t).

Definition stock_insuffisant (is_english : bool) (produit : Produit)
    : string :=
  if negb is_english then
    "Stock insuffisant pour " ++ p_nom produit ++ " ("
    ++ str_int (p_quantite_stock produit)
    ++ " disponible). Ajoutez du stock d'abord."
  else
    "Insufficient stock for " ++ p_nom produit ++ " ("
    ++ str_int (p_quantite_stock produit)
    ++ " available). Add stock first.".

Definition produit_non_trouve (is_english : bool) (produit_nom : string)
    : string :=
  if negb is_english then
    "Produit '" ++ produit_nom
    ++ "' non trouvé. Ajoutez-le dans le stock d'abord."
  else
    "Product '" ++ produit_nom ++ "' not found. Add it to stock first.".

Definition precisez_quantite (is_english : bool) : string :=
  if negb is_english then "Précisez la quantité (ex: '2 sacs de riz')."
  else "Specify the quantity (e.g., '2 bags of rice').".

Definition precisez_produit (is_english : bool) : string :=
  if negb is_english then "Précisez le produit (ex: 'vendu 3 savons')."
  else "Specify the product (e.g., 'sold 3 soaps').".

Definition auto_vente (req : Request) (is_english : bool) (details : pydict)
    (t : Turn) : outcome Turn :=
  let produit_nom := dict_get details "produit_nom" in
  let quantite := dict_get details "quantite" in
  nom_ok <- (truthy produit_nom && isinstance_str produit_nom)
            &&& py_len_ge produit_nom 2 ;;
  if nom_ok then
    quantite_ok <- (truthy quantite && isinstance_number quantite)
                   &&& py_ge quantite 1 ;;
    if quantite_ok then
      quantite <- py_int quantite ;;
      nom_lower <- py_lower produit_nom ;;
      match find_produit (boutique_id req) nom_lower (t_db t) with
      | Some produit =>
          if quantite <=? p_quantite_stock produit then
            commit_vente req is_english produit quantite t
          else
            Ok (set_feedback (stock_insuffisant is_english produit) t)
      | None =>
          produit_nom <- as_str produit_nom ;;
          Ok (set_feedback (produit_non_trouve is_english produit_nom) t)
      end
    else Ok (set_feedback (precisez_quantite is_english) t)
  else Ok (set_feedback (precisez_produit is_english) t).

(** The body of [if isinstance(categorie, str) and len(categorie) >= 2:]. *)
Definition new_depense (req : Request) (categorie : string) (montant : Z)
    (description : pyval) : Depense :=
  {| dp_id := row_uuid req; dp_boutique_id := boutique_id req;
     dp_categorie := categorie; dp_montant := montant;
     dp_description := match description with
                       | PyStr d => str_take 500 d
                       | _ => ""
                       end;
     dp_date_depense := utcnow req; dp_deleted_at := None |}.

(** [tx_msg] of a recorded expense. *)
Definition depense_message (is_english : bool) (categorie : string)
    (montant : Z) : string :=
  (if negb is_english then "Dépense enregistrée: "
   else "Expense recorded: ")
  ++ format_fcfa montant ++ " (" ++ categorie ++ ")".

(** The descriptor of a recorded expense. *)
Definition depense_recorded (is_english : bool) (categorie : string)
    (montant : Z) : pydict :=
  [("type", PyStr "depense");
   ("details", PyDict [("categorie", PyStr categorie);
                       ("montant", PyInt montant)]);
   ("success", PyBool true);
   ("message", PyStr (depense_message is_english categorie montant))].

Definition depense_response (is_english : bool) (categorie : string)
    (montant : Z) : string :=
  (if negb is_english then "C'est noté ! " else "Got it! ")
  ++ depense_message is_english categorie montant ++ " 📝".

(** [new_values] of the audit row of a recorded expense. *)
Definition depense_audit (categorie : string) (montant : Z) : pydict :=
  [("source", PyStr "cecile");
   ("categorie", PyStr categorie);
   ("montant", PyInt montant)].

Definition commit_depense (req : Request) (is_english : bool)
    (categorie : string) (montant : Z) (description : pyval) (t : Turn)
    : outcome Turn :=
  let depense := new_depense req categorie montant description in
  let s := db_add_depense depense (t_db t) in
  s <- db_commit [dp_montant depense] s ;;
  s <- log_audit req "create_auto" "depenses" (dp_id depense)
         (depense_audit categorie montant) s ;;
  Ok (set_recorded s (depense_recorded is_english categorie montant)
        (depense_response is_english categorie montant) t).

Definition precisez_depense (is_english : bool) : string :=
  if negb is_english then
    "Précisez le montant de la dépense (minimum 100 FCFA)."
  else "Specify the expense amount (minimum 100 FCFA).".

Definition auto_depense (req : Request) (is_english : bool)
    (details : pydict) (t : Turn) : outcome Turn :=
  let montant := dict_get details "montant_total" in
  montant_ok <- (truthy montant && isinstance_number montant)
                &&& py_ge montant 100 ;;
  if montant_ok then
    montant <- py_int montant ;;
    let categorie := py_or (dict_get details "categorie") (PyStr "Autre") in
    let description := py_or (dict_get details "description") (PyStr "") in
    categorie_ok <- isinstance_str categorie &&& py_len_ge categorie 2 ;;
    if categorie_ok then
      categorie <- as_str categorie ;;
      commit_depense req is_english categorie montant description t
    else Ok t
  else Ok (set_feedback (precisez_depense is_english) t).

(** The body of the innermost [if] of the debt branch. *)
(** [Dette(...)], with the defaults of the columns left out. *)
Definition new_dette (req : Request) (client_nom : string) (montant : Z)
    : Dette :=
  {| dt_id := row_uuid req; dt_boutique_id := boutique_id req;
     dt_nom_client := str_take 100 client_nom;
     dt_montant_initial := montant; dt_montant_restant := montant;
     dt_date_creation := utcnow req; dt_statut := "en_cours";
     dt_rappels_envoyes := 0; dt_deleted_at := None |}.

(** [tx_msg] of a recorded debt. *)
Definition dette_message (is_english : bool) (client_nom : string)
    (montant : Z) : string :=
  (if negb is_english then
     "Dette enregistrée: " ++ client_nom ++ " doit "
   else "Debt recorded: " ++ client_nom ++ " owes ")
  ++ format_fcfa montant.

(** The descriptor of a recorded debt. *)
Definition dette_recorded (is_english : bool) (client_nom : string)
    (montant : Z) : pydict :=
  [("type", PyStr "dette");
   ("details", PyDict [("client", PyStr client_nom);
                       ("montant", PyInt montant)]);
   ("success", PyBool true);
   ("message", PyStr (dette_message is_english client_nom montant))].

Definition dette_response (is_english : bool) (client_nom : string)
    (montant : Z) : string :=
  (if negb is_english then "C'est noté ! " else "Got it! ")
  ++ dette_message is_english client_nom montant ++ " 📋".

(** [new_values] of the audit row of a recorded debt. *)
Definition dette_audit (client_nom : string) (montant : Z) : pydict :=
  [("source", PyStr "cecile");
   ("client", PyStr client_nom);
   ("montant", PyInt montant)].

(** The integers bound by the INSERT of a debt. *)
Definition dette_bound (dette : Dette) : list Z :=
  [dt_montant_initial dette; dt_montant_restant dette;
   dt_rappels_envoyes dette].

Definition commit_dette (req : Request) (is_english : bool)
    (client_nom : string) (montant : Z) (t : Turn) : outcome Turn :=
  let dette := new_dette req client_nom montant in
  let s := db_add_dette dette (t_db t) in
  s <- db_commit (dette_bound dette) s ;;
  s <- log_audit req "create_auto" "dettes" (dt_id dette)
         (dette_audit client_nom montant) s ;;
  Ok (set_recorded s (dette_recorded is_english client_nom montant)
        (dette_response is_english client_nom montant) t).

Definition precisez_dette (is_english : bool) : string :=
  if negb is_english then
    "Précisez le montant de la dette (minimum 500 FCFA)."
  else "Specify the debt amount (minimum 500 FCFA).".

Definition precisez_client (is_english : bool) : string :=
  if negb is_english then "Précisez le nom du client."
  else "Specify the client's name.".

Definition auto_dette (req : Request) (is_english : bool) (details : pydict)
    (t : Turn) : outcome Turn :=
  let client_nom := dict_get details "client_nom" in
  let montant := dict_get details "montant_total" in
  nom_ok <- (truthy client_nom && isinstance_str client_nom)
            &&& py_len_ge client_nom 2 ;;
  if nom_ok then
    montant_ok <- (truthy montant && isinstance_number montant)
                  &&& py_ge montant 500 ;;
    if montant_ok then
      montant <- py_int montant ;;
      client_nom <- as_str client_nom ;;
      commit_dette req is_english client_nom montant t
    else Ok (set_feedback (precisez_dette is_english) t)
  else Ok (set_feedback (precisez_client is_english) t).

(** [v == s] for a [str] literal [s]. *)
Definition py_eq_str (v : pyval) (s : string) : bool :=
  match v with
  | PyStr a => String.eqb a s
  | _ => false
  end.

(** Truth value of a variable that is [None] or a dict. *)
Definition truthy_dict (d : option pydict) : bool :=
  match d with
  | Some kv => truthy (PyDict kv)
  | None => false
  end.

(** The confidence gate and the dispatch on [transaction_type]. *)
Definition record_intent (req : Request) (is_english : bool)
    (intent : pyval) (t : Turn) : outcome Turn :=
  intent <- as_dict intent ;;
  confident <- truthy (dict_get intent "has_transaction")
               &&& py_ge (dict_get_default intent "confidence" (PyInt 0))
                         confidence_threshold ;;
  if confident then
    let tx_type := dict_get intent "transaction_type" in
    let details := dict_get_default intent "details" (PyDict []) in
    if py_eq_str tx_type "vente" then
      details <- as_dict details ;; auto_vente req is_english details t
    else if py_eq_str tx_type "depense" then
      details <- as_dict details ;; auto_depense req is_english details t
    else if py_eq_str tx_type "dette" then
      details <- as_dict details ;; auto_dette req is_english details t
    else Ok t
  else Ok t.

Definition trop_de_transactions (is_english : bool) : string :=
  if negb is_english then
    "Trop de transactions automatiques récentes. Utilisez les formulaires pour continuer."
  else
    "Too many recent automatic transactions. Please use the forms to continue.".

(** The two [if] statements after the block: attach the descriptor, or
    append the feedback to the reply. *)
Definition compose_reply (t : Turn) : outcome pydict :=
  let result :=
    match t_transaction_recorded t with
    | Some d => if truthy (PyDict d)
                then dict_set (t_result t) "transaction_recorded" (PyDict d)
                else t_result t
    | None => t_result t
    end in
  match t_auto_tx_feedback t with
  | Some auto_tx_feedback =>
      if truthy (PyStr auto_tx_feedback)
         && negb (truthy_dict (t_transaction_recorded t)) then
        if truthy (dict_get result "response") then
          r <- py_add_str (dict_get result "response")
                 (newline ++ newline ++ "💡 " ++ auto_tx_feedback) ;;
          Ok (dict_set result "response" r)
        else Ok (dict_set result "response" (PyStr auto_tx_feedback))
      else Ok result
  | None => Ok result
  end.

Section Chat.

Variable json_loads : string -> outcome pyval.
Variable prompt_en prompt_fr : string -> string -> string.
Variable get_client : option Client.

(** [if data.auto_record_transactions: ...] *)
Definition auto_record (req : Request) (result : pydict) (s : Session)
    : outcome Turn :=
  let is_english := String.eqb (language req) "en" in
  let t := {| t_db := s; t_result := result;
              t_transaction_recorded := None;
              t_auto_tx_feedback := None |} in
  if auto_record_transactions req then
    if 10 <=? recent_auto_tx_count req s then
      Ok (set_feedback (trop_de_transactions is_english) t)
    else
      intent <- detect_transaction_intent json_loads prompt_en prompt_fr
                  get_client (message req)
                  (produits_for_detection req s) (language req) ;;
      record_intent req is_english intent t
  else Ok t.

(** From [transaction_recorded = None] to the composed [result]. *)
Definition chatbot_autorecord (req : Request) (result : pydict)
    (s : Session) : outcome (Session * pydict) :=
  t <- auto_record req result s ;;
  r <- compose_reply t ;;
  Ok (t_db t, r).

End Chat.

(** ** Notions of the specification *)

(** The value a number denotes, where it denotes one. *)
Definition number_value (v : pyval) : option Q :=
  match v with
  | PyBool b => Some (inject_Z (Z.b2z b))
  | PyInt n => Some (inject_Z n)
  | PyFloat (FFin q) => Some q
  | _ => None
  end.

(** A number below the bound [c]. *)
Definition number_below (v : pyval) (c : Q) : Prop :=
  match v with
  | PyFloat (FInf negative) => negative = true
  | _ => match number_value v with
         | Some q => (q < c)%Q
         | None => False
         end
  end.

(** A number at or above the bound [c]. *)
Definition number_at_least (v : pyval) (c : Q) : Prop :=
  match v with
  | PyFloat (FInf negative) => negative = false
  | _ => match number_value v with
         | Some q => (c <= q)%Q
         | None => False
         end
  end.

Definition has_transaction (intent : pydict) : pyval :=
  dict_get intent "has_transaction".

Definition confidence (intent : pydict) : pyval :=
  dict_get_default intent "confidence" (PyInt 0).

Definition transaction_type (intent : pydict) : pyval :=
  dict_get intent "transaction_type".

(** An intent the confidence gate lets through. *)
Definition passes_gate (intent : pydict) : Prop :=
  truthy (has_transaction intent) = true
  /\ number_at_least (confidence intent) confidence_threshold.

(** The intent is of the given kind and carries a bag of details. *)
Definition intent_of_type (intent : pydict) (kind : string)
    (details : pydict) : Prop :=
  transaction_type intent = PyStr kind
  /\ dict_get_default intent "details" (PyDict []) = PyDict details.

(** [needle in hay] *)
Fixpoint contains (needle hay : string) : bool :=
  String.prefix needle hay
  || match hay with
     | EmptyString => false
     | String _ hay' => contains needle hay'
     end.

(** The product name contains the extracted name, case apart. *)
Definition contains_ci (needle hay : string) : bool :=
  contains (lower needle) (lower hay).

(** The resolver as the specification words it. *)
Definition resolve_product (boutique : string) (name : string)
    (catalog : list Produit) : option Produit :=
  find (fun p => is_catalog_row boutique p && contains_ci name (p_nom p))
       catalog.

Definition is_wildcard (c : ascii) : bool :=
  Ascii.eqb c "%"%char || Ascii.eqb c "_"%char.

Fixpoint wildcard_free (s : string) : bool :=
  match s with
  | EmptyString => true
  | String c s' => negb (is_wildcard c) && wildcard_free s'
  end.

(** The quantity the specification asks for. *)
Definition integer_at_least_one (v : pyval) : Prop :=
  exists n, v = PyInt n /\ 1 <= n.

(** The local variables at the entry of the block. *)
Definition entry (result : pydict) (s : Session) : Turn :=
  {| t_db := s; t_result := result; t_transaction_recorded := None;
     t_auto_tx_feedback := None |}.

(** The reply once a feedback has been appended to a textual one. *)
Definition reply_with_feedback (reply feedback : string) : string :=
  if String.eqb reply "" then feedback
  else reply ++ newline ++ newline ++ "💡 " ++ feedback.

(** A session with nothing pending, as at the entry of the block. *)
Definition clean (s : Session) : Prop := work s = stored s.

(** The rows of the three ledgers and the catalog. *)
Definition ledger (s : Session)
    : list Produit * list Vente * list Depense * list Dette :=
  (produits (stored s), ventes (stored s), depenses (stored s),
   dettes (stored s)).

(** Integers that the storage engine accepts. *)
Definition storable (bound : list Z) : Prop :=
  forallb sqlite_integer bound = true.

(** The session after [log_audit], whose commit binds no integer. *)
Definition audited (req : Request) (table_name record_id : string)
    (new_values : pydict) (s : Session) : Session :=
  flushed (db_add_audit
             (new_audit req "create_auto" table_name record_id new_values)
             s).

(** The local variables after a sale whose two commits went through. *)
Definition vente_committed (req : Request) (en : bool) (produit : Produit)
    (quantite : Z) (t : Turn) : Turn :=
  let vente := new_vente req produit quantite in
  let s := set_quantite_stock (p_id produit)
             (p_quantite_stock produit - quantite) (t_db t) in
  let s := flushed (db_add_vente vente s) in
  let s := audited req "ventes" (v_id vente)
             (vente_audit produit quantite) s in
  set_recorded s (vente_recorded en produit quantite)
    (vente_response en produit quantite) t.

Definition depense_committed (req : Request) (en : bool)
    (categorie : string) (montant : Z) (description : pyval) (t : Turn)
    : Turn :=
  let depense := new_depense req categorie montant description in
  let s := flushed (db_add_depense depense (t_db t)) in
  let s := audited req "depenses" (dp_id depense)
             (depense_audit categorie montant) s in
  set_recorded s (depense_recorded en categorie montant)
    (depense_response en categorie montant) t.

Definition dette_committed (req : Request) (en : bool)
    (client_nom : string) (montant : Z) (t : Turn) : Turn :=
  let dette := new_dette req client_nom montant in
  let s := flushed (db_add_dette dette (t_db t)) in
  let s := audited req "dettes" (dt_id dette)
             (dette_audit client_nom montant) s in
  set_recorded s (dette_recorded en client_nom montant)
    (dette_response en client_nom montant) t.

(** What one pass through the block can do to the local variables: leave
    them alone, set a feedback, or commit one row of one kind, whose
    integers the storage engine accepted. *)
Inductive turn_effect (req : Request) (en : bool) (t : Turn)
    : Turn -> Prop :=
| effect_none :
    turn_effect req en t t
| effect_feedback (msg : string) :
    truthy (PyStr msg) = true ->
    turn_effect req en t (set_feedback msg t)
| effect_vente (nom : string) (produit : Produit) (quantite : Z) :
    find_produit (boutique_id req) (lower nom) (t_db t) = Some produit ->
    1 <= quantite <= p_quantite_stock produit ->
    storable (vente_bound produit (new_vente req produit quantite)) ->
    turn_effect req en t (vente_committed req en produit quantite t)
| effect_depense (categorie : string) (montant : Z) (description : pyval) :
    2 <= len categorie ->
    100 <= montant ->
    storable [montant] ->
    turn_effect req en t
      (depense_committed req en categorie montant description t)
| effect_dette (client_nom : string) (montant : Z) :
    2 <= len client_nom ->
    500 <= montant ->
    storable [montant] ->
    turn_effect req en t (dette_committed req en client_nom montant t).

(** ** The scenarios of the specification *)

(** A model whose answer decodes to the given value. *)
Definition answering (v : pyval) : string -> outcome pyval :=
  fun _ => Ok v.

Definition model_client : option Client :=
  Some (fun _ => Ok (Some "{}")).

Definition no_prompt : string -> string -> string := fun _ _ => "".

(** The turn when the model's answer decodes to [intent]. *)
Definition turn_on (intent : pydict) (req : Request) (result : pydict)
    (s : Session) : outcome (Session * pydict) :=
  chatbot_autorecord (answering (PyDict intent)) no_prompt no_prompt
    model_client req result s.

Definition riz (stock : Z) : Produit :=
  {| p_id := "p-riz"; p_boutique_id := "b1"; p_nom := "riz";
     p_prix_unitaire := 15000; p_quantite_stock := stock;
     p_active := true; p_deleted_at := None |}.

Definition boutique (stock : Z) : Session :=
  let d := {| produits := [riz stock]; ventes := []; depenses := [];
              dettes := []; audit_logs := []; chat_logs := [] |} in
  {| stored := d; work := d |}.

Definition chat_request (text : string) : Request :=
  {| message := text; language := "en"; auto_record_transactions := true;
     boutique_id := "b1"; client_host := "192.0.2.7";
     utcnow := 1700000000000000; row_uuid := "row-1";
     audit_uuid := "audit-1" |}.

Definition conversational_reply : pydict :=
  [("response", PyStr "Well done!"); ("suggestions", PyList [])].

Definition make_intent (kind : string) (details : pydict)
    (confidence : pyval) : pydict :=
  [("has_transaction", PyBool true);
   ("transaction_type", PyStr kind);
   ("details", PyDict details);
   ("confidence", confidence);
   ("missing_info", PyList [])].

Definition sale_details (nom : string) (quantite : pyval) : pydict :=
  [("produit_nom", PyStr nom); ("quantite", quantite);
   ("prix_unitaire", PyInt 15000); ("montant_total", PyNone);
   ("client_nom", PyNone); ("description", PyNone);
   ("categorie", PyNone)].

(** A chat log written one minute before [chat_request] for a turn that
    confirmed a sale. *)
Definition confirmation_log : ChatLog :=
  {| cl_id := "log"; cl_boutique_id := "b1";
     cl_user_message := "sold 1 riz";
     cl_bot_response := "Got it! Sale recorded: 1x riz = 15 000 FCFA 💪";
     cl_success := true; cl_ip_address := "192.0.2.7";
     cl_created_at := 1700000000000000 - 60000000 |}.

(** The account after ten confirmed auto-recordings in the last minute. *)
Definition busy_boutique : Session :=
  let d := {| produits := [riz 10]; ventes := []; depenses := [];
              dettes := []; audit_logs := [];
              chat_logs := repeat confirmation_log 10 |} in
  {| stored := d; work := d |}.

(** The ways an extraction fails: no client, a call that raises, an
    answer without a brace-delimited group, a group that does not decode. *)
Inductive extraction_failure (json_loads : string -> outcome pyval)
    (get_client : option Client) (prompt : string) : Prop :=
| failure_no_client :
    get_client = None ->
    extraction_failure json_loads get_client prompt
| failure_model_raises (client : Client) (e : exn) :
    get_client = Some client ->
    client prompt = Raise e ->
    extraction_failure json_loads get_client prompt
| failure_no_json (client : Client) (text : option string) :
    get_client = Some client ->
    client prompt = Ok text ->
    json_group text = None ->
    extraction_failure json_loads get_client prompt
| failure_bad_json (client : Client) (text : option string)
    (group : string) (e : exn) :
    get_client = Some client ->
    client prompt = Ok text ->
    json_group text = Some group ->
    json_loads group = Raise e ->
    extraction_failure json_loads get_client prompt.

(** A model that answers prose, without any JSON. *)
Definition prose_client : option Client :=
  Some (fun _ => Ok (Some "I am not sure what you mean.")).

(** [v == True]: [True] itself, or a number equal to 1. *)
Definition py_eq_true (v : pyval) : bool :=
  match v with
  | PyBool b => b
  | PyInt n => n =? 1
  | PyFloat (FFin q) => Qeq_bool q 1
  | _ => false
  end.

(** A confident sale of 2 "riz" whose [has_transaction] is any value. *)
Definition flagged_intent (flag : pyval) : pydict :=
  [("has_transaction", flag);
   ("transaction_type", PyStr "vente");
   ("details", PyDict (sale_details "riz" (PyInt 2)));
   ("confidence", PyFloat (FFin (7 # 8)));
   ("missing_info", PyList [])].

(** A confident intent whose type the extractor left null. *)
Definition untyped_intent : pydict :=
  [("has_transaction", PyBool true);
   ("transaction_type", PyNone);
   ("details", PyDict (sale_details "riz" (PyInt 2)));
   ("confidence", PyFloat (FFin (7 # 8)));
   ("missing_info", PyList [])].

(** A value the test [v and isinstance(v, (int, float)) and v >= c] turns
    down: missing or falsy, not a number, a number below the bound, or
    [nan]. *)
Definition number_rejected (v : pyval) (c : Q) : Prop :=
  truthy v = false \/ isinstance_number v = false \/ number_below v c
  \/ v = PyFloat FNan.

(** A value the test [v and isinstance(v, str) and len(v) >= 2] turns
    down: anything but a [str] of two characters or more. *)
Definition text_rejected (v : pyval) : Prop :=
  forall s, v = PyStr s -> len s < 2.


Definition expense_details (montant categorie : pyval) : pydict :=
  [("produit_nom", PyNone); ("quantite", PyNone);
   ("prix_unitaire", PyNone); ("montant_total", montant);
   ("client_nom", PyNone); ("description", PyStr "electricity");
   ("categorie", categorie)].

(** [x] is a prefix of [s], ASCII case apart. *)
Fixpoint prefix_ci (x s : list ascii) : bool :=
  match x, s with
  | [], _ => true
  | _ :: _, [] => false
  | c :: x', d :: s' =>
      Ascii.eqb (lower_ascii c) (lower_ascii d) && prefix_ci x' s'
  end.

Fixpoint infix_ci (x s : list ascii) : bool :=
  prefix_ci x s
  || match s with
     | [] => false
     | _ :: s' => infix_ci x s'
     end.

(** ** The other endpoints of [Backend/main.py] that write the ledgers *)

(** What an endpoint does: it answers, it raises [HTTPException], or an
    exception escapes it and the server answers 500; in each case the
    state is the one the request leaves behind, what was pending being
    dropped when [get_db] closes the session. *)
Inductive http (S A : Type) : Type :=
| Respond (a : A) (s : S)
| Abort (status_code : Z) (detail : string) (s : S)
| Fault (e : exn) (s : S).

Arguments Respond {S A} a s.
Arguments Abort {S A} status_code detail s.
Arguments Fault {S A} e s.

Definition state_after {S A : Type} (h : http S A) : S :=
  match h with
  | Respond _ s => s
  | Abort _ _ s => s
  | Fault _ s => s
  end.

(** The rest of an endpoint after a commit; when the commit raises, the
    request ends with the state [before]. *)
Definition after_commit {S A : Type} (committed : outcome Session)
    (before : S) (rest : Session -> http S A) : http S A :=
  match committed with
  | Ok s => rest s
  | Raise e => Fault e before
  end.

(** The integer an UPDATE binds for an attribute assigned [new] when the
    row was loaded with [old]: the flush leaves out an attribute whose
    value has not changed. *)
Definition updated (old new : Z) : list Z :=
  if old =? new then [] else [new].

Definition is_none {A : Type} (o : option A) : bool :=
  match o with
  | None => true
  | Some _ => false
  end.

(** [log_audit] with both optional dicts. *)
Definition log_audit_values (req : Request)
    (action table_name record_id : string)
    (old_values new_values : option pydict) (s : Session)
    : outcome Session :=
  let dumps := fun (values : option pydict) =>
    match values with
    | Some d => if truthy (PyDict d) then Some d else None
    | None => None
    end in
  let audit :=
    {| al_id := audit_uuid req; al_boutique_id := boutique_id req;
       al_action := action; al_table_name := table_name;
       al_record_id := record_id; al_old_values := dumps old_values;
       al_new_values := dumps new_values;
       al_ip_address := client_host req; al_created_at := utcnow req |} in
  db_commit [] (db_add_audit audit s).

(** The product query of the stock, sale and delete endpoints: by id,
    within the account, not deleted. *)
Definition query_produit (produit_id boutique : string) (s : Session)
    : option Produit :=
  find (fun p => String.eqb (p_id p) produit_id
                 && String.eqb (p_boutique_id p) boutique
                 && is_none (p_deleted_at p))
       (produits (stored s)).

(** [PATCH /api/produits/{produit_id}/stock] *)
Definition update_stock_endpoint (req : Request) (produit_id : string)
    (ajustement : Z) (s : Session) : http Session pydict :=
  match query_produit produit_id (boutique_id req) s with
  | None => Abort 404 "Produit non trouvé" s
  | Some produit =>
      let nouvelle_quantite := p_quantite_stock produit + ajustement in
      if nouvelle_quantite <? 0 then Abort 400 "Stock insuffisant" s
      else
        let pending :=
          set_quantite_stock (p_id produit) nouvelle_quantite s in
        after_commit
          (db_commit (updated (p_quantite_stock produit) nouvelle_quantite)
             pending)
          s
          (fun s => Respond [("nouvelle_quantite", PyInt nouvelle_quantite)]
                      s)
  end.

(** [produit.deleted_at = now; produit.active = False] *)
Definition retire (now : Z) (p : Produit) : Produit :=
  {| p_id := p_id p; p_boutique_id := p_boutique_id p; p_nom := p_nom p;
     p_prix_unitaire := p_prix_unitaire p;
     p_quantite_stock := p_quantite_stock p;
     p_active := false; p_deleted_at := Some now |}.

Definition set_produit_deleted (id : string) (now : Z) : Session -> Session :=
  on_work (fun d =>
    {| produits := map (fun p => if String.eqb (p_id p) id
                                 then retire now p else p) (produits d);
       ventes := ventes d; depenses := depenses d; dettes := dettes d;
       audit_logs := audit_logs d; chat_logs := chat_logs d |}).

(** [DELETE /api/produits/{produit_id}] *)
Definition delete_produit (req : Request) (produit_id : string)
    (s : Session) : http Session pydict :=
  match query_produit produit_id (boutique_id req) s with
  | None => Abort 404 "Produit non trouvé" s
  | Some produit =>
      let pending := set_produit_deleted (p_id produit) (utcnow req) s in
      after_commit (db_commit [] pending) s (fun s1 =>
      after_commit
        (log_audit_values req "delete_product" "produits" (p_id produit)
           (Some [("nom", PyStr (p_nom produit));
                  ("stock", PyInt (p_quantite_stock produit))])
           None s1)
        s1
        (fun s2 => Respond [("success", PyBool true)] s2))
  end.

(** [POST /api/ventes]; the body is a [VenteCreate], whose [quantite] is
    at least 1. The [ip_address] column of the row is not kept. *)
Definition create_vente (req : Request) (produit_id : string)
    (quantite : Z) (s : Session) : http Session pydict :=
  match query_produit produit_id (boutique_id req) s with
  | None => Abort 404 "Produit non trouvé" s
  | Some produit =>
      if p_quantite_stock produit <? quantite
      then Abort 400 "Stock insuffisant" s
      else
        let montant_total := p_prix_unitaire produit * quantite in
        let vente :=
          {| v_id := row_uuid req; v_boutique_id := boutique_id req;
             v_produit_id := p_id produit; v_quantite := quantite;
             v_prix_unitaire := p_prix_unitaire produit;
             v_montant_total := montant_total;
             v_mode_paiement := "especes";
             v_date_vente := utcnow req; v_deleted_at := None |} in
        let stock_restant := p_quantite_stock produit - quantite in
        let pending :=
          db_add_vente vente
            (set_quantite_stock (p_id produit) stock_restant s) in
        after_commit
          (db_commit
             (updated (p_quantite_stock produit) stock_restant
              ++ [v_quantite vente; v_prix_unitaire vente;
                  v_montant_total vente])
             pending)
          s (fun s1 =>
        after_commit
          (log_audit_values req "create_sale" "ventes" (v_id vente)
             None
             (Some [("montant", PyInt montant_total);
                    ("produit", PyStr (p_nom produit))]) s1)
          s1
          (fun s2 => Respond [("vente_id", PyStr (v_id vente));
                              ("montant_total", PyInt montant_total);
                              ("stock_restant", PyInt stock_restant)] s2))
  end.

(** [vente.deleted_at = now] *)
Definition mark_deleted (now : Z) (v : Vente) : Vente :=
  {| v_id := v_id v; v_boutique_id := v_boutique_id v;
     v_produit_id := v_produit_id v; v_quantite := v_quantite v;
     v_prix_unitaire := v_prix_unitaire v;
     v_montant_total := v_montant_total v;
     v_mode_paiement := v_mode_paiement v;
     v_date_vente := v_date_vente v; v_deleted_at := Some now |}.

Definition set_vente_deleted (id : string) (now : Z) : Session -> Session :=
  on_work (fun d =>
    {| produits := produits d;
       ventes := map (fun v => if String.eqb (v_id v) id
                               then mark_deleted now v else v) (ventes d);
       depenses := depenses d; dettes := dettes d;
       audit_logs := audit_logs d; chat_logs := chat_logs d |}).

Definition query_vente (vente_id boutique : string) (s : Session)
    : option Vente :=
  find (fun v => String.eqb (v_id v) vente_id
                 && String.eqb (v_boutique_id v) boutique
                 && is_none (v_deleted_at v))
       (ventes (stored s)).

(** [db.query(Produit).filter(Produit.id == id).first()] *)
Definition produit_by_id (id : string) (s : Session) : option Produit :=
  find (fun p => String.eqb (p_id p) id) (produits (stored s)).

(** [DELETE /api/ventes/{vente_id}] *)
Definition delete_vente (req : Request) (vente_id : string) (s : Session)
    : http Session pydict :=
  match query_vente vente_id (boutique_id req) s with
  | None => Abort 404 "Vente non trouvée" s
  | Some vente =>
      let produit := produit_by_id (v_produit_id vente) s in
      let stock_restaure :=
        match produit with
        | Some p => p_quantite_stock p + v_quantite vente
        | None => 0
        end in
      let pending :=
        set_vente_deleted (v_id vente) (utcnow req)
          match produit with
          | Some p => set_quantite_stock (p_id p) stock_restaure s
          | None => s
          end in
      let bound := match produit with
                   | Some p => updated (p_quantite_stock p) stock_restaure
                   | None => []
                   end in
      after_commit (db_commit bound pending) s (fun s1 =>
      after_commit
        (log_audit_values req "delete_sale" "ventes" (v_id vente)
           (Some [("montant", PyInt (v_montant_total vente));
                  ("quantite", PyInt (v_quantite vente))])
           None s1)
        s1
        (fun s2 => Respond [("success", PyBool true);
                            ("stock_restaure", PyInt stock_restaure)] s2))
  end.

Record PaiementDette : Type := mkPaiementDette {
  pd_id : string;
  pd_dette_id : string;
  pd_montant_paye : Z;
  pd_mode_paiement : string;
  pd_date_paiement : Z;
  pd_ip_address : string
}.

(** The session together with the [paiements_dettes] table, whose rows
    reach the database in the commit that stores the new balance. *)
Definition Books : Type := (Session * list PaiementDette)%type.

Definition query_dette (dette_id boutique : string) (s : Session)
    : option Dette :=
  find (fun d => String.eqb (dt_id d) dette_id
                 && String.eqb (dt_boutique_id d) boutique
                 && is_none (dt_deleted_at d))
       (dettes (stored s)).

Definition with_balance (d : Dette) (restant : Z) (statut : string) : Dette :=
  {| dt_id := dt_id d; dt_boutique_id := dt_boutique_id d;
     dt_nom_client := dt_nom_client d;
     dt_montant_initial := dt_montant_initial d;
     dt_montant_restant := restant;
     dt_date_creation := dt_date_creation d; dt_statut := statut;
     dt_rappels_envoyes := dt_rappels_envoyes d;
     dt_deleted_at := dt_deleted_at d |}.

Definition set_dette_balance (id : string) (restant : Z) (statut : string)
    : Session -> Session :=
  on_work (fun d =>
    {| produits := produits d; ventes := ventes d; depenses := depenses d;
       dettes := map (fun x => if String.eqb (dt_id x) id
                               then with_balance x restant statut else x)
                     (dettes d);
       audit_logs := audit_logs d; chat_logs := chat_logs d |}).

(** [POST /api/dettes/{dette_id}/paiement]; the body is a
    [PaiementDetteCreate], whose [montant_paye] is at least 1. *)
Definition payer_dette (req : Request) (dette_id : string)
    (montant_paye : Z) (b : Books) : http Books pydict :=
  let (s, paiements) := b in
  match query_dette dette_id (boutique_id req) s with
  | None => Abort 404 "Dette non trouvée" b
  | Some dette =>
      if dt_montant_restant dette <? montant_paye
      then Abort 400 "Montant supérieur à la dette restante" b
      else
        let paiement :=
          {| pd_id := row_uuid req; pd_dette_id := dt_id dette;
             pd_montant_paye := montant_paye;
             pd_mode_paiement := "especes";
             pd_date_paiement := utcnow req;
             pd_ip_address := client_host req |} in
        let montant_restant := dt_montant_restant dette - montant_paye in
        let statut := if montant_restant =? 0 then "soldee"
                      else dt_statut dette in
        let pending :=
          set_dette_balance (dt_id dette) montant_restant statut s in
        after_commit
          (db_commit
             (pd_montant_paye paiement
              :: updated (dt_montant_restant dette) montant_restant)
             pending)
          b (fun s1 =>
        after_commit
          (log_audit_values req "debt_payment" "dettes" (dt_id dette)
             None None s1)
          (s1, (paiements ++ [paiement])%list)
          (fun s2 => Respond [("nouveau_solde", PyInt montant_restant);
                              ("statut", PyStr statut);
                              ("paiement_id", PyStr (pd_id paiement))]
                       (s2, (paiements ++ [paiement])%list)))
  end.

(** The total paid on a debt. *)
Definition total_paye (dette_id : string) (paiements : list PaiementDette)
    : Z :=
  fold_right Z.add 0
    (map pd_montant_paye
       (filter (fun p => String.eqb (pd_dette_id p) dette_id) paiements)).

(** ** The calls of the interface, one after the other *)






(** Every debt is its payments away from its initial amount. *)
Definition balanced (b : Books) : Prop :=
  Forall (fun d => dt_montant_initial d
                   = dt_montant_restant d + total_paye (dt_id d) (snd b))
         (dettes (stored (fst b))).


Definition unique_produit_ids (s : Session) : Prop :=
  NoDup (map p_id (produits (stored s))).

Definition unique_dette_ids (s : Session) : Prop :=
  NoDup (map dt_id (dettes (stored s))).

(** The audit row [log_audit] writes for an automatic transaction. *)
Definition auto_audit (req : Request) (table_name : string)
    (new_values : pydict) : AuditLog :=
  {| al_id := audit_uuid req; al_boutique_id := boutique_id req;
     al_action := "create_auto"; al_table_name := table_name;
     al_record_id := row_uuid req; al_old_values := None;
     al_new_values := Some new_values;
     al_ip_address := client_host req; al_created_at := utcnow req |}.


(** ** Scenarios for the other endpoints *)

(** The account of [boutique 10] after a sale of 2 "riz" under the id
    "row-1". *)
Definition sold_boutique : Session :=
  let d := {| produits := [riz 8];
              ventes := [new_vente (chat_request "sold 2 riz") (riz 10) 2];
              depenses := []; dettes := []; audit_logs := [];
              chat_logs := [] |} in
  {| stored := d; work := d |}.

Definition mamadou : Dette :=
  {| dt_id := "d-1"; dt_boutique_id := "b1"; dt_nom_client := "Mamadou";
     dt_montant_initial := 5000; dt_montant_restant := 5000;
     dt_date_creation := 1700000000000000 - 60000000;
     dt_statut := "en_cours"; dt_rappels_envoyes := 0;
     dt_deleted_at := None |}.

(** An account with one open debt and no payment yet. *)
Definition debt_books : Books :=
  let d := {| produits := [riz 10]; ventes := []; depenses := [];
              dettes := [mamadou]; audit_logs := []; chat_logs := [] |} in
  ({| stored := d; work := d |}, []).

(** A confident sale of 2 "riz". *)
Definition riz_sale : pydict :=
  make_intent "vente" (sale_details "riz" (PyInt 2)) (PyFloat (FFin (7 # 8))).

(** ** The text around the JSON group *)

Definition is_brace (c : ascii) : bool :=
  Ascii.eqb c "{"%char || Ascii.eqb c "}"%char.

(** A text without any brace. *)
Fixpoint brace_free (s : string) : bool :=
  match s with
  | EmptyString => true
  | String c s' => negb (is_brace c) && brace_free s'
  end.

(** [response.text or ""] *)
Definition text_or_empty (response_text : option string) : string :=
  match response_text with
  | Some t => t
  | None => ""
  end.

(** ** Accounts *)

(** The rows of one account. *)
Definition of_account {A : Type} (owner : A -> string) (boutique : string)
    (rows : list A) : list A :=
  filter (fun x => String.eqb (owner x) boutique) rows.

(** ** [POST /api/auth/login] ([Backend/main.py]), up to the commit that
    follows the PIN check *)







Section Login.

(** [verify_pin], that is [bcrypt.checkpw]. *)
Variable verify_pin : string -> string -> bool.


End Login.



(** ** Fallible computations *)

Lemma bind_Ok {A B : Type} (m : outcome A) (k : A -> outcome B) (b : B) :
  bind m k = Ok b -> exists a, m = Ok a /\ k a = Ok b.
Proof.
  destruct m as [a|e]; simpl; intros H; [eauto | discriminate].
Qed.

Lemma and_then_true (a : bool) (b : outcome bool) :
  a &&& b = Ok true -> a = true /\ b = Ok true.
Proof.
  destruct a; simpl; intros H; [auto | discriminate].
Qed.

(** ** The confidence gate *)

Lemma threshold_above_four_fifths : (8 # 10 < confidence_threshold)%Q.
Proof. reflexivity. Qed.

Lemma py_ge_number_below (v : pyval) :
  number_below v (8 # 10) -> py_ge v confidence_threshold = Ok false.
Proof.
  pose proof threshold_above_four_fifths as Hthr.
  assert (Hq : forall q, (q < 8 # 10)%Q ->
                 Qle_bool confidence_threshold q = false).
  { intros q Hlt. destruct (Qle_bool confidence_threshold q) eqn:E; auto.
    apply Qle_bool_iff in E.
    exfalso. apply (Qlt_irrefl q).
    eapply Qlt_le_trans; [exact Hlt|].
    eapply Qle_trans; [apply Qlt_le_weak; exact Hthr | exact E]. }
  destruct v as [ | b | n | [ | neg | q] | s | l | kv]; simpl;
    try contradiction; intros H.
  - now rewrite Hq.
  - now rewrite Hq.
  - subst neg. reflexivity.
  - now rewrite Hq.
Qed.

Lemma py_ge_at_least (v : pyval) (c : Q) :
  py_ge v c = Ok true <-> number_at_least v c.
Proof.
  destruct v as [ | b | n | [ | neg | q] | s | l | kv]; simpl;
    (split; [intros H; try discriminate; injection H as H | intros H]);
    try contradiction;
    try (apply Qle_bool_iff in H; exact H);
    try (f_equal; apply Qle_bool_iff; exact H).
  - now destruct neg.
  - now subst neg.
Qed.

Lemma number_at_least_weaken (v : pyval) (c d : Q) :
  (d <= c)%Q -> number_at_least v c -> number_at_least v d.
Proof.
  intros Hdc.
  destruct v as [ | b | n | [ | neg | q] | s | l | kv]; simpl; auto;
    intros H; eapply Qle_trans; eauto.
Qed.

Lemma passes_gate_four_fifths (intent : pydict) :
  passes_gate intent -> number_at_least (confidence intent) (8 # 10).
Proof.
  intros [_ H]. eapply number_at_least_weaken; [ | exact H].
  apply Qlt_le_weak, threshold_above_four_fifths.
Qed.

Lemma record_intent_gate_closed (req : Request) (en : bool)
    (intent : pydict) (t : Turn) :
  truthy (has_transaction intent) = false
  \/ number_below (confidence intent) (8 # 10) ->
  record_intent req en (PyDict intent) t = Ok t.
Proof.
  unfold record_intent, has_transaction, confidence. simpl.
  intros [Hf | Hb].
  - rewrite Hf. reflexivity.
  - rewrite (py_ge_number_below _ Hb).
    destruct (truthy (dict_get intent "has_transaction")); reflexivity.
Qed.

(** ** Numbers *)

Lemma Qle_bool_inject_quot (k : Z) (q : Q) :
  0 <= k -> Qle_bool (inject_Z k) q = true ->
  k <= Z.quot (Qnum q) (Z.pos (Qden q)).
Proof.
  intros Hk H. apply Qle_bool_iff in H.
  destruct q as [num den]. unfold Qle in H. simpl in H. simpl.
  assert (Hnum : 0 <= num) by nia.
  rewrite Z.quot_div_nonneg by lia.
  apply Z.div_le_lower_bound; lia.
Qed.

Lemma py_int_at_least (v : pyval) (k q : Z) :
  0 <= k ->
  py_ge v (inject_Z k) = Ok true -> py_int v = Ok q -> k <= q.
Proof.
  intros Hk Hge Hint.
  destruct v as [ | b | n | [ | neg | x] | s | l | kv]; simpl in *;
    try discriminate; injection Hge as Hge; injection Hint as <-.
  - apply Qle_bool_iff in Hge. unfold Qle in Hge. simpl in Hge. lia.
  - apply Qle_bool_iff in Hge. unfold Qle in Hge. simpl in Hge. lia.
  - now apply Qle_bool_inject_quot.
Qed.

Lemma py_len_ge_str (v : pyval) (n : Z) :
  isinstance_str v = true -> py_len_ge v n = Ok true ->
  exists s, v = PyStr s /\ n <= len s.
Proof.
  destruct v; simpl; try discriminate. intros _ H.
  unfold py_len_ge in H. simpl in H. injection H as H.
  exists s. split; [reflexivity | lia].
Qed.

(** A test of the shape [v and isinstance(v, str) and len(v) >= n]. *)
Lemma valid_text (v : pyval) (n : Z) :
  (truthy v && isinstance_str v) &&& py_len_ge v n = Ok true ->
  exists s, v = PyStr s /\ n <= len s.
Proof.
  intros H. apply and_then_true in H as [Ha Hb].
  apply andb_true_iff in Ha as [_ Hs]. now apply py_len_ge_str.
Qed.

(** A test of the shape [v and isinstance(v, (int, float)) and v >= k],
    followed by [int(v)]. *)
Lemma valid_amount (v : pyval) (k q : Z) :
  0 <= k ->
  (truthy v && isinstance_number v) &&& py_ge v (inject_Z k) = Ok true ->
  py_int v = Ok q -> k <= q.
Proof.
  intros Hk H Hint. apply and_then_true in H as [_ Hb].
  eapply py_int_at_least; eauto.
Qed.

Ltac feedback_effect :=
  apply effect_feedback;
  match goal with
  | |- truthy (PyStr (?f ?en)) = true => destruct en; reflexivity
  | |- truthy (PyStr (?f ?en _)) = true => destruct en; reflexivity
  end.

Lemma py_eq_str_false (v : pyval) (s : string) :
  v <> PyStr s -> py_eq_str v s = false.
Proof.
  destruct v; simpl; auto. intros H.
  destruct (String.eqb_spec s0 s); [subst; contradiction | reflexivity].
Qed.

Ltac feedback_exists :=
  eexists; split; [ | reflexivity];
  match goal with
  | |- truthy (PyStr (?f ?en)) = true => destruct en; reflexivity
  | |- truthy (PyStr (?f ?en _)) = true => destruct en; reflexivity
  end.

(** ** Commits *)

Lemma commit_vente_eq (req : Request) (en : bool) (produit : Produit)
    (quantite : Z) (t : Turn) :
  commit_vente req en produit quantite t
  = if forallb sqlite_integer
         (vente_bound produit (new_vente req produit quantite))
    then Ok (vente_committed req en produit quantite t)
    else Raise OverflowError.
Proof.
  unfold commit_vente, db_commit.
  destruct (forallb sqlite_integer _); reflexivity.
Qed.

Lemma commit_depense_eq (req : Request) (en : bool) (categorie : string)
    (montant : Z) (description : pyval) (t : Turn) :
  commit_depense req en categorie montant description t
  = if forallb sqlite_integer [montant]
    then Ok (depense_committed req en categorie montant description t)
    else Raise OverflowError.
Proof.
  unfold commit_depense, db_commit.
  cbn [dp_montant new_depense].
  destruct (forallb sqlite_integer _); reflexivity.
Qed.

Lemma storable_dette (req : Request) (client_nom : string) (montant : Z) :
  forallb sqlite_integer (dette_bound (new_dette req client_nom montant))
  = forallb sqlite_integer [montant].
Proof.
  unfold dette_bound. cbn [new_dette dt_montant_initial dt_montant_restant
                           dt_rappels_envoyes forallb].
  change (sqlite_integer 0) with true.
  destruct (sqlite_integer montant); reflexivity.
Qed.

Lemma commit_dette_eq (req : Request) (en : bool) (client_nom : string)
    (montant : Z) (t : Turn) :
  commit_dette req en client_nom montant t
  = if forallb sqlite_integer [montant]
    then Ok (dette_committed req en client_nom montant t)
    else Raise OverflowError.
Proof.
  unfold commit_dette, db_commit. rewrite storable_dette.
  destruct (forallb sqlite_integer _); reflexivity.
Qed.

Lemma if_Ok {A : Type} (b : bool) (a a' : A) (e : exn) :
  (if b then Ok a else Raise e) = Ok a' -> b = true /\ a' = a.
Proof. destruct b; intros H; [injection H as <-; auto | discriminate]. Qed.

(** ** The three branches *)

Lemma auto_vente_inv (req : Request) (en : bool) (details : pydict)
    (t t' : Turn) :
  auto_vente req en details t = Ok t' ->
  (exists msg, truthy (PyStr msg) = true /\ t' = set_feedback msg t)
  \/ (exists nom produit quantite,
        dict_get details "produit_nom" = PyStr nom
        /\ 2 <= len nom
        /\ isinstance_number (dict_get details "quantite") = true
        /\ number_at_least (dict_get details "quantite") 1
        /\ py_int (dict_get details "quantite") = Ok quantite
        /\ find_produit (boutique_id req) (lower nom) (t_db t)
           = Some produit
        /\ 1 <= quantite <= p_quantite_stock produit
        /\ storable (vente_bound produit (new_vente req produit quantite))
        /\ t' = vente_committed req en produit quantite t).
Proof.
  unfold auto_vente. intros H.
  apply bind_Ok in H as (nom_ok & Hnom & H).
  destruct nom_ok; [ | injection H as <-; left; feedback_exists].
  apply valid_text in Hnom as (nom & Enom & Hlen).
  apply bind_Ok in H as (quantite_ok & Hq & H).
  destruct quantite_ok; [ | injection H as <-; left; feedback_exists].
  apply bind_Ok in H as (quantite & Hint & H).
  apply bind_Ok in H as (nom_lower & Hlow & H).
  rewrite Enom in Hlow. simpl in Hlow. injection Hlow as <-.
  destruct (find_produit (boutique_id req) (lower nom) (t_db t))
    as [produit|] eqn:Hfind.
  - destruct (quantite <=? p_quantite_stock produit) eqn:Hstock;
      [ | injection H as <-; left; feedback_exists].
    rewrite commit_vente_eq in H. apply if_Ok in H as [Hbound ->].
    right. exists nom, produit, quantite.
    pose proof (valid_amount _ 1 _ ltac:(lia) Hq Hint) as Hone.
    apply and_then_true in Hq as [Hnum Hge].
    apply andb_true_iff in Hnum as [_ Hnum].
    apply py_ge_at_least in Hge.
    repeat (split; [assumption|]). split; [lia|].
    split; [exact Hbound | reflexivity].
  - apply bind_Ok in H as (nom_text & _ & H). injection H as <-.
    left; feedback_exists.
Qed.

Lemma auto_vente_effect (req : Request) (en : bool) (details : pydict)
    (t t' : Turn) :
  auto_vente req en details t = Ok t' -> turn_effect req en t t'.
Proof.
  intros H.
  apply auto_vente_inv in H
    as [(msg & Hmsg & ->)
       | (nom & produit & quantite & _ & _ & _ & _ & _ & Hf & Hq & Hb & ->)].
  - now apply effect_feedback.
  - now apply effect_vente with (nom := nom).
Qed.

Lemma auto_depense_inv (req : Request) (en : bool) (details : pydict)
    (t t' : Turn) :
  auto_depense req en details t = Ok t' ->
  t' = t
  \/ (exists msg, truthy (PyStr msg) = true /\ t' = set_feedback msg t)
  \/ (exists categorie montant description,
        2 <= len categorie /\ 100 <= montant
        /\ storable [montant]
        /\ t' = depense_committed req en categorie montant description t).
Proof.
  unfold auto_depense. intros H.
  apply bind_Ok in H as (montant_ok & Hm & H).
  destruct montant_ok;
    [ | injection H as <-; right; left; feedback_exists].
  apply bind_Ok in H as (montant & Hint & H).
  apply bind_Ok in H as (categorie_ok & Hc & H).
  destruct categorie_ok; [ | injection H as <-; now left].
  apply bind_Ok in H as (categorie & Hcat & H).
  rewrite commit_depense_eq in H. apply if_Ok in H as [Hbound ->].
  apply and_then_true in Hc as [Hstr Hlen].
  apply py_len_ge_str in Hlen as (c & Ec & Hlen); [ | exact Hstr].
  rewrite Ec in Hcat. simpl in Hcat. injection Hcat as <-.
  right; right. do 3 eexists. split; [exact Hlen|].
  split; [ | split; [exact Hbound | reflexivity]].
  exact (valid_amount _ 100 _ ltac:(lia) Hm Hint).
Qed.

Lemma auto_depense_effect (req : Request) (en : bool) (details : pydict)
    (t t' : Turn) :
  auto_depense req en details t = Ok t' -> turn_effect req en t t'.
Proof.
  intros H.
  apply auto_depense_inv in H
    as [-> | [(msg & Hmsg & ->) | (c & m & d & Hc & Hm & Hb & ->)]].
  - apply effect_none.
  - now apply effect_feedback.
  - now apply effect_depense.
Qed.

Lemma auto_dette_inv (req : Request) (en : bool) (details : pydict)
    (t t' : Turn) :
  auto_dette req en details t = Ok t' ->
  (exists msg, truthy (PyStr msg) = true /\ t' = set_feedback msg t)
  \/ (exists nom montant,
        dict_get details "client_nom" = PyStr nom
        /\ 2 <= len nom
        /\ py_int (dict_get details "montant_total") = Ok montant
        /\ 500 <= montant
        /\ storable [montant]
        /\ t' = dette_committed req en nom montant t).
Proof.
  unfold auto_dette. intros H.
  apply bind_Ok in H as (nom_ok & Hnom & H).
  destruct nom_ok; [ | injection H as <-; left; feedback_exists].
  apply valid_text in Hnom as (nom & Enom & Hlen).
  apply bind_Ok in H as (montant_ok & Hm & H).
  destruct montant_ok; [ | injection H as <-; left; feedback_exists].
  apply bind_Ok in H as (montant & Hint & H).
  apply bind_Ok in H as (client_nom & Hcl & H).
  rewrite commit_dette_eq in H. apply if_Ok in H as [Hbound ->].
  rewrite Enom in Hcl. simpl in Hcl. injection Hcl as <-.
  right. exists nom, montant. repeat (split; [assumption|]).
  split; [ | split; [exact Hbound | reflexivity]].
  exact (valid_amount _ 500 _ ltac:(lia) Hm Hint).
Qed.

Lemma auto_dette_effect (req : Request) (en : bool) (details : pydict)
    (t t' : Turn) :
  auto_dette req en details t = Ok t' -> turn_effect req en t t'.
Proof.
  intros H.
  apply auto_dette_inv in H
    as [(msg & Hmsg & ->) | (nom & m & _ & Hlen & _ & Hm & Hb & ->)].
  - now apply effect_feedback.
  - now apply effect_dette.
Qed.

Lemma py_eq_str_true (v : pyval) (s : string) :
  py_eq_str v s = true -> v = PyStr s.
Proof.
  destruct v; simpl; try discriminate. intros H.
  apply String.eqb_eq in H. now subst.
Qed.

(** ** The gate and the dispatch *)

Lemma record_intent_inv (req : Request) (en : bool) (intent : pyval)
    (t t' : Turn) :
  record_intent req en intent t = Ok t' ->
  exists kv, intent = PyDict kv
    /\ (t' = t
        \/ passes_gate kv
           /\ exists details,
                dict_get_default kv "details" (PyDict []) = PyDict details
                /\ (py_eq_str (transaction_type kv) "vente" = true
                    /\ auto_vente req en details t = Ok t'
                    \/ py_eq_str (transaction_type kv) "depense" = true
                       /\ auto_depense req en details t = Ok t'
                    \/ py_eq_str (transaction_type kv) "dette" = true
                       /\ auto_dette req en details t = Ok t')).
Proof.
  unfold record_intent. intros H.
  apply bind_Ok in H as (kv & Hkv & H).
  destruct intent; try discriminate. injection Hkv as ->.
  exists kv. split; [reflexivity|].
  apply bind_Ok in H as (confident & Hgate & H).
  destruct confident; [ | injection H as <-; now left].
  apply and_then_true in Hgate as [Hhas Hconf].
  apply py_ge_at_least in Hconf.
  fold (transaction_type kv) in H.
  destruct (py_eq_str (transaction_type kv) "vente") eqn:Ev;
    [ | destruct (py_eq_str (transaction_type kv) "depense") eqn:Ed;
        [ | destruct (py_eq_str (transaction_type kv) "dette") eqn:Et;
            [ | injection H as <-; now left ] ] ];
    apply bind_Ok in H as (details & Hd & H);
    (destruct (dict_get_default kv "details" (PyDict [])) eqn:Edet;
     try discriminate); injection Hd as ->;
    right; (split; [split; assumption|]); exists details;
    (split; [reflexivity|]); auto.
Qed.

Lemma record_intent_effect (req : Request) (en : bool) (intent : pyval)
    (t t' : Turn) :
  record_intent req en intent t = Ok t' -> turn_effect req en t t'.
Proof.
  intros H. apply record_intent_inv in H as (kv & _ & [-> | (_ & d & _ & H)]).
  - apply effect_none.
  - destruct H as [(_ & H) | [(_ & H) | (_ & H)]].
    + eapply auto_vente_effect; eauto.
    + eapply auto_depense_effect; eauto.
    + eapply auto_dette_effect; eauto.
Qed.

(** ** Composition of the reply *)

Lemma compose_feedback (result : pydict) (s : Session) (msg reply : string) :
  truthy (PyStr msg) = true ->
  dict_lookup "response" result = Some (PyStr reply) ->
  compose_reply (set_feedback msg (entry result s))
  = Ok (dict_set result "response" (PyStr (reply_with_feedback reply msg))).
Proof.
  intros Hmsg Hreply. unfold compose_reply, reply_with_feedback.
  cbn [t_transaction_recorded t_auto_tx_feedback t_result set_feedback entry
       truthy_dict negb andb].
  rewrite Hmsg. cbn [andb]. unfold dict_get. rewrite Hreply.
  cbn [truthy]. destruct (String.eqb reply ""); reflexivity.
Qed.

Section ChatFacts.

Variable json_loads : string -> outcome pyval.
Variable prompt_en prompt_fr : string -> string -> string.
Variable get_client : option Client.

Let detect := detect_transaction_intent json_loads prompt_en prompt_fr
                get_client.
Let block := auto_record json_loads prompt_en prompt_fr get_client.
Let turn := chatbot_autorecord json_loads prompt_en prompt_fr get_client.

Lemma auto_record_effect (req : Request) (result : pydict) (s : Session)
    (t' : Turn) :
  block req result s = Ok t' ->
  turn_effect req (String.eqb (language req) "en") (entry result s) t'.
Proof.
  unfold block, auto_record. fold (entry result s).
  destruct (auto_record_transactions req);
    [ | intros H; injection H as <-; apply effect_none].
  destruct (10 <=? recent_auto_tx_count req s).
  - intros H; injection H as <-. feedback_effect.
  - intros H. apply bind_Ok in H as (intent & _ & H).
    now apply record_intent_effect in H.
Qed.



Lemma block_extracted (req : Request) (result : pydict) (s : Session)
    (intent : pyval) :
  auto_record_transactions req = true ->
  recent_auto_tx_count req s < 10 ->
  detect (message req) (produits_for_detection req s) (language req)
  = Ok intent ->
  block req result s
  = record_intent req (String.eqb (language req) "en") intent
      (entry result s).
Proof.
  intros Hauto Hcount Hdetect. unfold block, auto_record.
  rewrite Hauto. destruct (Z.leb_spec 10 (recent_auto_tx_count req s));
    [lia|].
  fold detect. rewrite Hdetect. reflexivity.
Qed.

Lemma turn_inv (req : Request) (result : pydict) (s s' : Session)
    (r : pydict) :
  turn req result s = Ok (s', r) ->
  exists t', block req result s = Ok t' /\ compose_reply t' = Ok r
             /\ s' = t_db t'.
Proof.
  unfold turn, chatbot_autorecord. fold block. intros H.
  apply bind_Ok in H as (t' & Hb & H).
  apply bind_Ok in H as (r' & Hc & H). injection H as <- <-.
  eauto.
Qed.

Lemma turn_silent (req : Request) (result : pydict) (s : Session) :
  block req result s = Ok (entry result s) ->
  turn req result s = Ok (s, result).
Proof.
  intros H. unfold turn, chatbot_autorecord. fold block. now rewrite H.
Qed.

Lemma turn_gate_closed (req : Request) (result : pydict) (s : Session)
    (intent : pydict) :
  auto_record_transactions req = true ->
  recent_auto_tx_count req s < 10 ->
  detect (message req) (produits_for_detection req s) (language req)
  = Ok (PyDict intent) ->
  truthy (has_transaction intent) = false
  \/ number_below (confidence intent) (8 # 10) ->
  turn req result s = Ok (s, result).
Proof.
  intros Hauto Hcount Hdetect Hclosed. apply turn_silent.
  rewrite (block_extracted req result s _ Hauto Hcount Hdetect).
  now apply record_intent_gate_closed.
Qed.

(** C1, amended. An intent whose [has_transaction] is falsy, or whose
    confidence is a number below 0.8, leaves the whole database as it was
    and the reply as the conversational model gave it; whenever a turn
    changes a row of the catalog or of a ledger, the intent had a truthy
    [has_transaction], which is [True] when it is a boolean, and a
    confidence of at least the double 0.8. *)
Theorem confidence_gate (req : Request) (result : pydict) (s : Session)
    (intent : pydict) :
  auto_record_transactions req = true ->
  recent_auto_tx_count req s < 10 ->
  detect (message req) (produits_for_detection req s) (language req)
  = Ok (PyDict intent) ->
  (truthy (has_transaction intent) = false
   \/ number_below (confidence intent) (8 # 10) ->
   turn req result s = Ok (s, result))
  /\ (forall s' r,
        turn req result s = Ok (s', r) ->
        ledger s' <> ledger s ->
        passes_gate intent
        /\ number_at_least (confidence intent) (8 # 10)
        /\ forall b, has_transaction intent = PyBool b -> b = true).
Proof.
  intros Hauto Hcount Hdetect.
  pose proof (block_extracted req result s _ Hauto Hcount Hdetect) as Hb.
  split.
  - now apply turn_gate_closed.
  - intros s' r Hturn Hneq.
    apply turn_inv in Hturn as (t' & Ht' & _ & ->).
    rewrite Hb in Ht'.
    apply record_intent_inv in Ht' as (kv & Ekv & [-> | (Hgate & _)]).
    + now contradiction Hneq.
    + injection Ekv as <-. split; [exact Hgate|].
      split; [now apply passes_gate_four_fifths|].
      intros b Eb. destruct Hgate as [Hhas _]. now rewrite Eb in Hhas.
Qed.

(** C10. A confident intent whose [transaction_type] is none of
    "vente", "depense" and "dette" writes nothing and explains nothing:
    the database and the reply are those of the conversational turn,
    without descriptor and without feedback. *)
Theorem unknown_type_is_silent (req : Request) (result : pydict)
    (s : Session) (intent : pydict) :
  auto_record_transactions req = true ->
  recent_auto_tx_count req s < 10 ->
  detect (message req) (produits_for_detection req s) (language req)
  = Ok (PyDict intent) ->
  passes_gate intent ->
  transaction_type intent <> PyStr "vente" ->
  transaction_type intent <> PyStr "depense" ->
  transaction_type intent <> PyStr "dette" ->
  block req result s = Ok (entry result s)
  /\ turn req result s = Ok (s, result).
Proof.
  intros Hauto Hcount Hdetect [Hhas Hconf] Hv Hd Ht.
  assert (Hb : block req result s = Ok (entry result s)).
  { rewrite (block_extracted req result s _ Hauto Hcount Hdetect).
    unfold record_intent. cbn [as_dict bind].
    fold (has_transaction intent) (confidence intent)
         (transaction_type intent).
    rewrite Hhas. apply py_ge_at_least in Hconf.
    cbn [and_then]. rewrite Hconf. cbn [bind].
    rewrite !py_eq_str_false by assumption. reflexivity. }
  split; [exact Hb | now apply turn_silent].
Qed.

End ChatFacts.

(** ** Intent extraction *)

Section ExtractionFacts.

Variable json_loads : string -> outcome pyval.
Variable prompt_en prompt_fr : string -> string -> string.
Variable get_client : option Client.

Let detect := detect_transaction_intent json_loads prompt_en prompt_fr
                get_client.
Let turn := chatbot_autorecord json_loads prompt_en prompt_fr get_client.

Lemma detect_total (message : string) (produits : list produit_entry)
    (language : string) :
  exists v, detect message produits language = Ok v.
Proof.
  unfold detect, detect_transaction_intent.
  destruct get_client as [client|]; [ | eauto].
  destruct (extract_intent json_loads client _); eauto.
Qed.

Lemma detect_failure (message : string) (produits : list produit_entry)
    (language : string) :
  extraction_failure json_loads get_client
    (intent_prompt prompt_en prompt_fr message produits language) ->
  exists kv, detect message produits language = Ok (PyDict kv)
             /\ has_transaction kv = PyBool false.
Proof.
  unfold detect, detect_transaction_intent.
  intros [Hc | client e Hc Hraise | client text Hc Htext Hgroup
          | client text group e Hc Htext Hgroup Hloads];
    rewrite Hc; unfold extract_intent.
  - eexists; split; reflexivity.
  - rewrite Hraise. eexists; split; reflexivity.
  - rewrite Htext. cbn [bind]. rewrite Hgroup.
    eexists; split; reflexivity.
  - rewrite Htext. cbn [bind]. rewrite Hgroup, Hloads.
    eexists; split; reflexivity.
Qed.

(** C3. [detect_transaction_intent] returns on every input; when the
    extraction fails (no client, a raising call, an answer without a
    brace-delimited group, or a group that is not JSON) what it returns
    is a dict whose [has_transaction] is [False], and the turn that
    called it ends with the database and the conversational reply
    untouched. *)
Theorem extraction_failure_is_no_transaction (req : Request)
    (result : pydict) (s : Session) :
  (forall message produits language,
     exists v, detect message produits language = Ok v)
  /\ (extraction_failure json_loads get_client
        (intent_prompt prompt_en prompt_fr (message req)
           (produits_for_detection req s) (language req)) ->
      (exists kv,
         detect (message req) (produits_for_detection req s)
           (language req) = Ok (PyDict kv)
         /\ has_transaction kv = PyBool false)
      /\ (auto_record_transactions req = true ->
          recent_auto_tx_count req s < 10 ->
          turn req result s = Ok (s, result))).
Proof.
  split; [apply detect_total|].
  intros Hfail.
  destruct (detect_failure _ _ _ Hfail) as (kv & Hdetect & Hhas).
  split; [eauto|].
  intros Hauto Hcount.
  apply (turn_gate_closed json_loads prompt_en prompt_fr get_client
           req result s kv Hauto Hcount Hdetect).
  left. now rewrite Hhas.
Qed.

End ExtractionFacts.

(** ** The abuse guard *)

(** C4. Once the count of confirmations logged for the account in the last
    five minutes has reached ten, a turn with auto-recording enabled does
    not depend on the model, on the decoder or on the catalog: the block
    only sets the rate-limit notice, the database is untouched, and the
    notice is appended to the conversational reply. *)
Theorem abuse_guard_skips_extraction
    (json_loads : string -> outcome pyval)
    (prompt_en prompt_fr : string -> string -> string)
    (get_client : option Client)
    (req : Request) (result : pydict) (s : Session) (reply : string) :
  auto_record_transactions req = true ->
  10 <= recent_auto_tx_count req s ->
  dict_lookup "response" result = Some (PyStr reply) ->
  let notice := trop_de_transactions (String.eqb (language req) "en") in
  auto_record json_loads prompt_en prompt_fr get_client req result s
  = Ok (set_feedback notice (entry result s))
  /\ chatbot_autorecord json_loads prompt_en prompt_fr get_client
       req result s
     = Ok (s, dict_set result "response"
                (PyStr (reply_with_feedback reply notice)))
  /\ forall json_loads' prompt_en' prompt_fr' get_client',
       chatbot_autorecord json_loads' prompt_en' prompt_fr' get_client'
         req result s
       = chatbot_autorecord json_loads prompt_en prompt_fr get_client
           req result s.
Proof.
  intros Hauto Hcount Hreply notice.
  assert (Hblock : forall jl pe pf gc,
            auto_record jl pe pf gc req result s
            = Ok (set_feedback notice (entry result s))).
  { intros. unfold auto_record. rewrite Hauto.
    destruct (Z.leb_spec 10 (recent_auto_tx_count req s)); [ | lia].
    reflexivity. }
  assert (Hturn : forall jl pe pf gc,
            chatbot_autorecord jl pe pf gc req result s
            = Ok (s, dict_set result "response"
                       (PyStr (reply_with_feedback reply notice)))).
  { intros. unfold chatbot_autorecord. rewrite Hblock. cbn [bind].
    rewrite (compose_feedback result s notice reply);
      [reflexivity | | exact Hreply].
    subst notice. destruct (String.eqb (language req) "en"); reflexivity. }
  split; [apply Hblock|]. split; [apply Hturn|].
  intros. now rewrite !Hturn.
Qed.

Lemma abuse_guard_witness :
  let req := chat_request "sold 2 riz" in
  let intent := make_intent "vente" (sale_details "riz" (PyInt 2))
                  (PyInt 1) in
  auto_record_transactions req = true
  /\ 10 <= recent_auto_tx_count req busy_boutique
  /\ turn_on intent req conversational_reply busy_boutique
     = Ok (busy_boutique,
           [("response",
             PyStr (reply_with_feedback "Well done!"
                      "Too many recent automatic transactions. Please use the forms to continue."));
            ("suggestions", PyList [])]).
Proof.
  intros req intent.
  assert (Hauto : auto_record_transactions req = true) by reflexivity.
  assert (Hcount : 10 <= recent_auto_tx_count req busy_boutique)
    by (vm_compute; discriminate).
  split; [exact Hauto|]. split; [exact Hcount|].
  exact (proj1 (proj2 (abuse_guard_skips_extraction
                         (answering (PyDict intent)) no_prompt no_prompt
                         model_client req conversational_reply
                         busy_boutique "Well done!" Hauto Hcount
                         eq_refl))).
Defined.

(** ** The scenarios, run *)

Lemma confidence_gate_witness :
  let req := chat_request "Sold 2 bags of rice at 15000" in
  let intent := make_intent "vente" (sale_details "riz" (PyInt 2))
                  (PyFloat (FFin (1 # 2))) in
  auto_record_transactions req = true
  /\ recent_auto_tx_count req (boutique 10) < 10
  /\ detect_transaction_intent (answering (PyDict intent)) no_prompt
       no_prompt model_client (message req)
       (produits_for_detection req (boutique 10)) (language req)
     = Ok (PyDict intent)
  /\ number_below (confidence intent) (8 # 10)
  /\ turn_on intent req conversational_reply (boutique 10)
     = Ok (boutique 10, conversational_reply).
Proof.
  intros req intent.
  assert (Hauto : auto_record_transactions req = true) by reflexivity.
  assert (Hcount : recent_auto_tx_count req (boutique 10) < 10)
    by reflexivity.
  assert (Hdetect :
            detect_transaction_intent (answering (PyDict intent)) no_prompt
              no_prompt model_client (message req)
              (produits_for_detection req (boutique 10)) (language req)
            = Ok (PyDict intent)) by reflexivity.
  assert (Hbelow : number_below (confidence intent) (8 # 10))
    by reflexivity.
  repeat (split; [assumption|]).
  exact (proj1 (confidence_gate _ _ _ _ req conversational_reply
                  (boutique 10) intent Hauto Hcount Hdetect)
               (or_intror Hbelow)).
Defined.

(** C1, as stated, fails: the gate tests the truth value of
    [has_transaction], not its equality with [True]. With the string
    "false", or with the number 2, neither of which equals [True], and a
    confidence of 0.875, the turn records the sale of 2 and takes 2 from
    the stock. *)
Lemma truthy_flag_opens_the_gate :
  let req := chat_request "Sold 2 bags of rice at 15000" in
  let run := fun flag =>
    turn_on (flagged_intent flag) req conversational_reply (boutique 10) in
  py_eq_true (PyStr "false") = false
  /\ py_eq_true (PyInt 2) = false
  /\ (exists s' r,
        run (PyStr "false") = Ok (s', r)
        /\ map v_quantite (ventes (stored s')) = [2]
        /\ map p_quantite_stock (produits (stored s')) = [8])
  /\ (exists s' r,
        run (PyInt 2) = Ok (s', r)
        /\ map v_quantite (ventes (stored s')) = [2]
        /\ map p_quantite_stock (produits (stored s')) = [8]).
Proof.
  intros req run. repeat (split; [reflexivity|]). split.
  - do 2 eexists. split; [vm_compute; reflexivity|]. split; reflexivity.
  - do 2 eexists. split; [vm_compute; reflexivity|]. split; reflexivity.
Qed.

Lemma unknown_type_is_silent_witness :
  let req := chat_request "rice again" in
  auto_record_transactions req = true
  /\ recent_auto_tx_count req (boutique 10) < 10
  /\ passes_gate untyped_intent
  /\ transaction_type untyped_intent = PyNone
  /\ turn_on untyped_intent req conversational_reply (boutique 10)
     = Ok (boutique 10, conversational_reply).
Proof.
  intros req.
  assert (Hauto : auto_record_transactions req = true) by reflexivity.
  assert (Hcount : recent_auto_tx_count req (boutique 10) < 10)
    by reflexivity.
  assert (Hgate : passes_gate untyped_intent)
    by (split; [reflexivity | vm_compute; discriminate]).
  repeat (split; [first [assumption | reflexivity]|]).
  exact (proj2 (unknown_type_is_silent
                  (answering (PyDict untyped_intent)) no_prompt no_prompt
                  model_client req conversational_reply (boutique 10)
                  untyped_intent Hauto Hcount eq_refl Hgate
                  ltac:(discriminate) ltac:(discriminate)
                  ltac:(discriminate))).
Defined.

Lemma extraction_failure_witness :
  let req := chat_request "hello" in
  extraction_failure (answering PyNone) prose_client
    (intent_prompt no_prompt no_prompt (message req)
       (produits_for_detection req (boutique 10)) (language req))
  /\ detect_transaction_intent (answering PyNone) no_prompt no_prompt
       prose_client (message req)
       (produits_for_detection req (boutique 10)) (language req)
     = Ok no_transaction
  /\ chatbot_autorecord (answering PyNone) no_prompt no_prompt prose_client
       req conversational_reply (boutique 10)
     = Ok (boutique 10, conversational_reply).
Proof.
  intros req.
  assert (Hfail : extraction_failure (answering PyNone) prose_client
                    (intent_prompt no_prompt no_prompt (message req)
                       (produits_for_detection req (boutique 10))
                       (language req))).
  { eapply failure_no_json; reflexivity. }
  split; [exact Hfail|]. split; [reflexivity|].
  exact (proj2 (proj2 (extraction_failure_is_no_transaction
                         (answering PyNone) no_prompt no_prompt
                         prose_client req conversational_reply
                         (boutique 10)) Hfail)
               eq_refl eq_refl).
Defined.

(** ** What a turn does to the ledgers *)

Lemma dict_lookup_set (d : pydict) (k : string) (v : pyval) :
  dict_lookup k (dict_set d k v) = Some v.
Proof.
  induction d as [ | [k' v'] d IH]; simpl.
  - now rewrite String.eqb_refl.
  - destruct (String.eqb k k') eqn:E; simpl; rewrite E; auto.
Qed.

Lemma commit_vente_ledger (req : Request) (en : bool) (produit : Produit)
    (quantite : Z) (result : pydict) (s : Session) :
  clean s ->
  ledger (t_db (vente_committed req en produit quantite (entry result s)))
  = (update_stock (p_id produit) (p_quantite_stock produit - quantite)
       (produits (stored s)),
     (ventes (stored s) ++ [new_vente req produit quantite])%list,
     depenses (stored s), dettes (stored s)).
Proof. unfold clean. intros <-. reflexivity. Qed.

Lemma commit_depense_ledger (req : Request) (en : bool) (categorie : string)
    (montant : Z) (description : pyval) (result : pydict) (s : Session) :
  clean s ->
  ledger (t_db (depense_committed req en categorie montant description
                  (entry result s)))
  = (produits (stored s), ventes (stored s),
     (depenses (stored s)
      ++ [new_depense req categorie montant description])%list,
     dettes (stored s)).
Proof. unfold clean. intros <-. reflexivity. Qed.

Lemma commit_dette_ledger (req : Request) (en : bool) (client_nom : string)
    (montant : Z) (result : pydict) (s : Session) :
  clean s ->
  ledger (t_db (dette_committed req en client_nom montant (entry result s)))
  = (produits (stored s), ventes (stored s), depenses (stored s),
     (dettes (stored s) ++ [new_dette req client_nom montant])%list).
Proof. unfold clean. intros <-. reflexivity. Qed.

Lemma find_produit_In (boutique : string) (nom_lower : string)
    (s : Session) (produit : Produit) :
  find_produit boutique nom_lower s = Some produit ->
  In produit (produits (stored s)).
Proof. unfold find_produit. intros H. now apply find_some in H. Qed.

Lemma update_stock_In (produit : Produit) (q : Z) (rows : list Produit) :
  In produit rows ->
  In (with_stock produit q) (update_stock (p_id produit) q rows).
Proof.
  intros H. unfold update_stock.
  apply in_map_iff. exists produit. now rewrite String.eqb_refl.
Qed.

(** ** The validation tests, forwards *)

Lemma py_ge_below (v : pyval) (c : Q) :
  number_below v c -> py_ge v c = Ok false.
Proof.
  assert (Hq : forall q, (q < c)%Q -> Qle_bool c q = false).
  { intros q Hlt. destruct (Qle_bool c q) eqn:E; auto.
    apply Qle_bool_iff in E. exfalso.
    apply (Qlt_irrefl q). eapply Qlt_le_trans; eauto. }
  destruct v as [ | b | n | [ | neg | q] | s | l | kv]; simpl;
    try contradiction; intros H; try (now rewrite Hq).
  now subst neg.
Qed.

Lemma number_test_rejects (v : pyval) (c : Q) :
  number_rejected v c ->
  (truthy v && isinstance_number v) &&& py_ge v c = Ok false.
Proof.
  intros [H | [H | [H | ->]]].
  - now rewrite H.
  - rewrite H, andb_false_r. reflexivity.
  - rewrite (py_ge_below _ _ H).
    destruct (truthy v && isinstance_number v); reflexivity.
  - reflexivity.
Qed.

Lemma number_test_accepts (v : pyval) (k : Z) :
  0 < k ->
  number_at_least v (inject_Z k) ->
  (truthy v && isinstance_number v) &&& py_ge v (inject_Z k) = Ok true.
Proof.
  intros Hk H. pose proof (proj2 (py_ge_at_least v _) H) as Hge.
  rewrite Hge.
  assert (Ht : truthy v && isinstance_number v = true);
    [ | now rewrite Ht].
  destruct v as [ | b | n | [ | neg | q] | s | l | kv]; simpl in *;
    try contradiction; auto.
  - unfold Qle in H. simpl in H. destruct b; simpl in *; [auto | lia].
  - unfold Qle in H. simpl in H. rewrite andb_true_r.
    destruct (Z.eqb_spec n 0); [lia | reflexivity].
  - rewrite andb_true_r. destruct (Qeq_bool q 0) eqn:E; auto.
    apply Qeq_bool_iff in E. rewrite E in H.
    unfold Qle in H. simpl in H. lia.
Qed.

Lemma text_test_rejects (v : pyval) :
  text_rejected v ->
  (truthy v && isinstance_str v) &&& py_len_ge v 2 = Ok false.
Proof.
  intros H.
  destruct v as [ | b | n | f | s | l | kv]; simpl;
    try (now rewrite andb_false_r).
  - reflexivity.
  - specialize (H s eq_refl). rewrite andb_true_r.
    destruct (negb (String.eqb s "")); [ | reflexivity].
    unfold py_len_ge. simpl. f_equal. lia.
Qed.

Lemma text_test_accepts (s : string) :
  2 <= len s ->
  (truthy (PyStr s) && isinstance_str (PyStr s)) &&& py_len_ge (PyStr s) 2
  = Ok true.
Proof.
  intros H. destruct s as [ | c s]; [unfold len in H; simpl in H; lia|].
  simpl. unfold py_len_ge. simpl bind. f_equal. lia.
Qed.


Lemma auto_vente_quantity_rejected (req : Request) (en : bool)
    (details : pydict) (t : Turn) (nom : string) :
  dict_get details "produit_nom" = PyStr nom ->
  2 <= len nom ->
  number_rejected (dict_get details "quantite") 1 ->
  auto_vente req en details t = Ok (set_feedback (precisez_quantite en) t).
Proof.
  intros Enom Hlen Hq. unfold auto_vente.
  rewrite Enom, (text_test_accepts nom Hlen). cbn [bind].
  rewrite (number_test_rejects _ _ Hq). reflexivity.
Qed.

Lemma auto_depense_category_rejected (req : Request) (en : bool)
    (details : pydict) (t : Turn) (categorie : pyval) :
  number_at_least (dict_get details "montant_total") 100 ->
  (exists montant, py_int (dict_get details "montant_total") = Ok montant) ->
  dict_get details "categorie" = categorie ->
  truthy categorie = true ->
  text_rejected categorie ->
  auto_depense req en details t = Ok t.
Proof.
  intros Hm (montant & Hint) Ecat Htruthy Hrej. unfold auto_depense.
  pose proof (number_test_accepts _ 100 ltac:(lia) Hm) as Hacc.
  change (inject_Z 100) with 100%Q in Hacc. rewrite Hacc. cbn [bind].
  rewrite Hint. cbn [bind]. rewrite Ecat. unfold py_or. rewrite Htruthy.
  assert (Hc : isinstance_str categorie &&& py_len_ge categorie 2
               = Ok false).
  { pose proof (text_test_rejects categorie Hrej) as Htest.
    rewrite Htruthy in Htest. exact Htest. }
  rewrite Hc. reflexivity.
Qed.









Lemma record_intent_confident (req : Request) (en : bool) (intent : pydict)
    (kind : string) (details : pydict) (t : Turn) :
  passes_gate intent ->
  intent_of_type intent kind details ->
  record_intent req en (PyDict intent) t
  = if String.eqb kind "vente" then auto_vente req en details t
    else if String.eqb kind "depense" then auto_depense req en details t
    else if String.eqb kind "dette" then auto_dette req en details t
    else Ok t.
Proof.
  intros [Hhas Hconf] [Hkind Hdetails]. unfold record_intent.
  cbn [as_dict bind].
  fold (has_transaction intent) (confidence intent)
       (transaction_type intent).
  rewrite Hhas. apply py_ge_at_least in Hconf. cbn [and_then].
  rewrite Hconf. cbn [bind]. rewrite Hkind, Hdetails. cbn [py_eq_str as_dict bind].
  reflexivity.
Qed.

Section LedgerFacts.

Variable json_loads : string -> outcome pyval.
Variable prompt_en prompt_fr : string -> string -> string.
Variable get_client : option Client.

Let detect := detect_transaction_intent json_loads prompt_en prompt_fr
                get_client.
Let block := auto_record json_loads prompt_en prompt_fr get_client.
Let turn := chatbot_autorecord json_loads prompt_en prompt_fr get_client.

(** Every turn that returns falls in one of four cases. *)
Lemma turn_ledger_cases (req : Request) (result : pydict)
    (s s' : Session) (r : pydict) :
  clean s ->
  turn req result s = Ok (s', r) ->
  let en := String.eqb (language req) "en" in
  s' = s
  \/ (exists nom produit quantite,
        find_produit (boutique_id req) (lower nom) s = Some produit
        /\ 1 <= quantite <= p_quantite_stock produit
        /\ ledger s'
           = (update_stock (p_id produit)
                (p_quantite_stock produit - quantite)
                (produits (stored s)),
              (ventes (stored s)
               ++ [new_vente req produit quantite])%list,
              depenses (stored s), dettes (stored s))
        /\ dict_lookup "transaction_recorded" r
           = Some (PyDict (vente_recorded en produit quantite)))
  \/ (exists categorie montant description,
        2 <= len categorie /\ 100 <= montant
        /\ ledger s'
           = (produits (stored s), ventes (stored s),
              (depenses (stored s)
               ++ [new_depense req categorie montant description])%list,
              dettes (stored s)))
  \/ (exists client_nom montant,
        2 <= len client_nom /\ 500 <= montant
        /\ ledger s'
           = (produits (stored s), ventes (stored s), depenses (stored s),
              (dettes (stored s)
               ++ [new_dette req client_nom montant])%list)).
Proof.
  intros Hclean Hturn en.
  apply turn_inv in Hturn as (t' & Hblock & Hcompose & ->).
  apply auto_record_effect in Hblock. fold en in Hblock.
  destruct Hblock
    as [ | msg Hmsg | nom produit quantite Hfind Hq Hbound
       | categorie montant description Hlen Hm Hbound
       | client_nom montant Hlen Hm Hbound].
  - now left.
  - now left.
  - right; left. exists nom, produit, quantite.
    repeat (split; [assumption|]).
    split; [now apply commit_vente_ledger|].
    cbn in Hcompose. injection Hcompose as <-.
    apply dict_lookup_set.
  - right; right; left. exists categorie, montant, description.
    repeat (split; [assumption|]). now apply commit_depense_ledger.
  - right; right; right. exists client_nom, montant.
    repeat (split; [assumption|]). now apply commit_dette_ledger.
Qed.

Lemma block_confident (req : Request) (result : pydict) (s : Session)
    (intent : pydict) (kind : string) (details : pydict) :
  auto_record_transactions req = true ->
  recent_auto_tx_count req s < 10 ->
  detect (message req) (produits_for_detection req s) (language req)
  = Ok (PyDict intent) ->
  passes_gate intent ->
  intent_of_type intent kind details ->
  let en := String.eqb (language req) "en" in
  block req result s
  = if String.eqb kind "vente"
    then auto_vente req en details (entry result s)
    else if String.eqb kind "depense"
    then auto_depense req en details (entry result s)
    else if String.eqb kind "dette"
    then auto_dette req en details (entry result s)
    else Ok (entry result s).
Proof.
  intros Hauto Hcount Hdetect Hgate Hkind en.
  unfold block.
  rewrite (block_extracted _ _ _ _ req result s _ Hauto Hcount Hdetect).
  now apply record_intent_confident.
Qed.

Lemma turn_feedback (req : Request) (result : pydict) (s : Session)
    (msg reply : string) :
  block req result s = Ok (set_feedback msg (entry result s)) ->
  truthy (PyStr msg) = true ->
  dict_lookup "response" result = Some (PyStr reply) ->
  turn req result s
  = Ok (s, dict_set result "response"
             (PyStr (reply_with_feedback reply msg))).
Proof.
  intros Hblock Hmsg Hreply. unfold turn, chatbot_autorecord.
  fold block. rewrite Hblock. cbn [bind].
  now rewrite (compose_feedback result s msg reply Hmsg Hreply).
Qed.

End LedgerFacts.

(** ** Sales *)

(** Nothing reaches the database before [db.commit()]; the commit brings
    the new row and the new stock together. *)
Lemma sale_writes_are_one_commit (vente : Vente) (id : string) (q : Z)
    (s : Session) :
  let pending := db_add_vente vente (set_quantite_stock id q s) in
  stored pending = stored s
  /\ forall bound s',
       db_commit bound pending = Ok s' ->
       produits (stored s') = update_stock id q (produits (work s))
       /\ ventes (stored s') = (ventes (work s) ++ [vente])%list.
Proof.
  split; [reflexivity|]. intros bound s' H. unfold db_commit in H.
  apply if_Ok in H as [_ ->]. split; reflexivity.
Qed.




(** C6. The row of an auto-recorded sale carries the unit price of the
    resolved catalog row as it stood at the commit, and a total equal to
    the quantity times that price; a product priced 15000 with a stock of
    10, sold by 2, gives a total of 30000 and a stock of 8. *)
Theorem sale_price_snapshot
    (json_loads : string -> outcome pyval)
    (prompt_en prompt_fr : string -> string -> string)
    (get_client : option Client)
    (req : Request) (result : pydict) (s s' : Session) (r : pydict) :
  clean s ->
  chatbot_autorecord json_loads prompt_en prompt_fr get_client req result s
  = Ok (s', r) ->
  ventes (stored s') <> ventes (stored s) ->
  exists nom produit vente,
    find_produit (boutique_id req) (lower nom) s = Some produit
    /\ ventes (stored s') = (ventes (stored s) ++ [vente])%list
    /\ v_produit_id vente = p_id produit
    /\ v_prix_unitaire vente = p_prix_unitaire produit
    /\ v_montant_total vente = v_quantite vente * v_prix_unitaire vente
    /\ In (with_stock produit (p_quantite_stock produit - v_quantite vente))
          (produits (stored s'))
    /\ (p_prix_unitaire produit = 15000 ->
        p_quantite_stock produit = 10 ->
        v_quantite vente = 2 ->
        v_montant_total vente = 30000
        /\ In (with_stock produit 8) (produits (stored s'))).
Proof.
  intros Hclean Hturn Hneq.
  apply turn_ledger_cases in Hturn; [ | exact Hclean].
  destruct Hturn
    as [-> | [(nom & produit & quantite & Hfind & Hq & Hledger & _)
             | [(c & m & d & _ & _ & Hledger)
               | (c & m & _ & _ & Hledger)]]];
    try (now contradiction Hneq);
    unfold ledger in Hledger; injection Hledger as Hp Hv _ _;
    try (now contradiction Hneq).
  exists nom, produit, (new_vente req produit quantite).
  assert (Hin : In (with_stock produit (p_quantite_stock produit - quantite))
                   (produits (stored s'))).
  { rewrite Hp. apply update_stock_In. eapply find_produit_In; eauto. }
  cbn [new_vente v_produit_id v_prix_unitaire v_montant_total v_quantite].
  repeat (split; [first [assumption | reflexivity]|]).
  intros Hprix Hstock Hquantite. subst quantite.
  rewrite Hprix. split; [reflexivity|].
  now rewrite Hstock in Hin.
Qed.

Lemma sale_price_snapshot_witness :
  let req := chat_request "Sold 2 bags of rice at 15000" in
  let intent := make_intent "vente" (sale_details "riz" (PyInt 2))
                  (PyFloat (FFin (95 # 100))) in
  clean (boutique 10)
  /\ exists s' r,
       turn_on intent req conversational_reply (boutique 10) = Ok (s', r)
       /\ ventes (stored s') <> ventes (stored (boutique 10))
       /\ map v_montant_total (ventes (stored s')) = [30000]
       /\ map p_quantite_stock (produits (stored s')) = [8]
       /\ exists nom produit vente,
            find_produit (boutique_id req) (lower nom) (boutique 10)
            = Some produit
            /\ ventes (stored s')
               = (ventes (stored (boutique 10)) ++ [vente])%list
            /\ v_produit_id vente = p_id produit
            /\ v_prix_unitaire vente = p_prix_unitaire produit
            /\ v_montant_total vente
               = v_quantite vente * v_prix_unitaire vente
            /\ In (with_stock produit
                     (p_quantite_stock produit - v_quantite vente))
                  (produits (stored s'))
            /\ (p_prix_unitaire produit = 15000 ->
                p_quantite_stock produit = 10 ->
                v_quantite vente = 2 ->
                v_montant_total vente = 30000
                /\ In (with_stock produit 8) (produits (stored s'))).
Proof.
  intros req intent. split; [reflexivity|].
  assert (Hturn : exists s' r,
            turn_on intent req conversational_reply (boutique 10)
            = Ok (s', r)
            /\ ventes (stored s') <> ventes (stored (boutique 10))
            /\ map v_montant_total (ventes (stored s')) = [30000]
            /\ map p_quantite_stock (produits (stored s')) = [8]).
  { do 2 eexists. split; [vm_compute; reflexivity|].
    split; [discriminate | split; reflexivity]. }
  destruct Hturn as (s' & r & Hturn & Hneq & Htotal & Hstock).
  exists s', r. repeat (split; [assumption|]).
  exact (sale_price_snapshot _ _ _ _ req conversational_reply
           (boutique 10) s' r eq_refl Hturn Hneq).
Defined.

Section ValidationFacts.

Variable json_loads : string -> outcome pyval.
Variable prompt_en prompt_fr : string -> string -> string.
Variable get_client : option Client.

Let detect := detect_transaction_intent json_loads prompt_en prompt_fr
                get_client.
Let block := auto_record json_loads prompt_en prompt_fr get_client.
Let turn := chatbot_autorecord json_loads prompt_en prompt_fr get_client.

(** A turn that adds a sale went through the sale branch with a
    quantity that passed its test. *)
Lemma turn_sale_inv (req : Request) (result : pydict) (s s' : Session)
    (r : pydict) (intent : pydict) :
  auto_record_transactions req = true ->
  recent_auto_tx_count req s < 10 ->
  detect (message req) (produits_for_detection req s) (language req)
  = Ok (PyDict intent) ->
  clean s ->
  turn req result s = Ok (s', r) ->
  ventes (stored s') <> ventes (stored s) ->
  exists details produit quantite,
    intent_of_type intent "vente" details
    /\ isinstance_number (dict_get details "quantite") = true
    /\ number_at_least (dict_get details "quantite") 1
    /\ py_int (dict_get details "quantite") = Ok quantite
    /\ 1 <= quantite <= p_quantite_stock produit
    /\ ventes (stored s')
       = (ventes (stored s) ++ [new_vente req produit quantite])%list.
Proof.
  intros Hauto Hcount Hdetect Hclean Hturn Hneq.
  apply turn_inv in Hturn as (t' & Hblock & _ & ->).
  rewrite (block_extracted _ _ _ _ req result s _ Hauto Hcount Hdetect)
    in Hblock.
  apply record_intent_inv in Hblock
    as (kv & Ekv & [-> | (_ & details & Hdetails & Hbranch)]);
    [now contradiction Hneq|].
  injection Ekv as <-.
  destruct Hbranch as [(Hkind & H) | [(_ & H) | (_ & H)]].
  - apply py_eq_str_true in Hkind.
    apply auto_vente_inv in H
      as [(msg & _ & ->)
         | (nom & produit & quantite & _ & _ & Hnum & Hge & Hint & Hfind
            & Hq & _ & ->)];
      [now contradiction Hneq|].
    exists details, produit, quantite.
    split; [now split|]. repeat (split; [assumption|]).
    pose proof (commit_vente_ledger req (String.eqb (language req) "en")
                  produit quantite result s Hclean) as Hledger.
    unfold ledger in Hledger. now injection Hledger as _ Hv _ _.
  - apply auto_depense_inv in H
      as [-> | [(msg & _ & ->) | (c & m & d & _ & _ & _ & ->)]];
      try (now contradiction Hneq).
    pose proof (commit_depense_ledger req (String.eqb (language req) "en")
                  c m d result s Hclean) as Hledger.
    unfold ledger in Hledger. injection Hledger as _ Hv _ _.
    now contradiction Hneq.
  - apply auto_dette_inv in H
      as [(msg & _ & ->) | (nom & m & _ & _ & _ & _ & _ & ->)];
      [now contradiction Hneq|].
    pose proof (commit_dette_ledger req (String.eqb (language req) "en")
                  nom m result s Hclean) as Hledger.
    unfold ledger in Hledger. injection Hledger as _ Hv _ _.
    now contradiction Hneq.
Qed.

(** C7, amended. A turn adds a sale only when the extracted quantity is
    a number (an [int], a [float] or a [bool]) that is at least 1, the
    test preceding every write, and the quantity recorded is its integer
    part, which is at least 1; when the product name is valid and the
    quantity is missing, falsy, not a number, below 1 or [nan], nothing
    is written and the reply asks to specify the quantity. *)
Theorem sale_quantity_validation (req : Request) (result : pydict)
    (s : Session) (intent : pydict) :
  auto_record_transactions req = true ->
  recent_auto_tx_count req s < 10 ->
  detect (message req) (produits_for_detection req s) (language req)
  = Ok (PyDict intent) ->
  clean s ->
  (forall s' r,
     turn req result s = Ok (s', r) ->
     ventes (stored s') <> ventes (stored s) ->
     exists details produit quantite,
       intent_of_type intent "vente" details
       /\ isinstance_number (dict_get details "quantite") = true
       /\ number_at_least (dict_get details "quantite") 1
       /\ py_int (dict_get details "quantite") = Ok quantite
       /\ 1 <= quantite <= p_quantite_stock produit
       /\ ventes (stored s')
          = (ventes (stored s) ++ [new_vente req produit quantite])%list)
  /\ (forall details nom reply,
        passes_gate intent ->
        intent_of_type intent "vente" details ->
        dict_get details "produit_nom" = PyStr nom ->
        2 <= len nom ->
        number_rejected (dict_get details "quantite") 1 ->
        dict_lookup "response" result = Some (PyStr reply) ->
        turn req result s
        = Ok (s, dict_set result "response"
                   (PyStr (reply_with_feedback reply
                             (precisez_quantite
                                (String.eqb (language req) "en")))))).
Proof.
  intros Hauto Hcount Hdetect Hclean. split.
  - intros s' r Hturn Hneq. eapply turn_sale_inv; eauto.
  - intros details nom reply Hgate Hkind Enom Hlen Hrej Hreply.
    apply turn_feedback; [ | | exact Hreply].
    + unfold block.
      rewrite (block_confident _ _ _ _ req result s intent "vente"
                 details Hauto Hcount Hdetect Hgate Hkind).
      cbn [String.eqb Ascii.eqb Bool.eqb].
      now apply auto_vente_quantity_rejected with (nom := nom).
    + destruct (String.eqb (language req) "en"); reflexivity.
Qed.



End ValidationFacts.

(** ** The product query against the resolver of the specification *)

Lemma like_chars_percent (p s : list ascii) :
  like_chars ("%"%char :: p) s
  = like_chars p s
    || match s with
       | [] => false
       | _ :: s' => like_chars ("%"%char :: p) s'
       end.
Proof. destruct s; reflexivity. Qed.

Lemma like_chars_literal (c : ascii) (p s : list ascii) :
  is_wildcard c = false ->
  like_chars (c :: p) s
  = match s with
    | [] => false
    | d :: s' =>
        Ascii.eqb (lower_ascii c) (lower_ascii d) && like_chars p s'
    end.
Proof.
  unfold is_wildcard. intros H. apply orb_false_iff in H as [Hp Hu].
  cbn [like_chars]. now rewrite Hp, Hu.
Qed.

Lemma like_percent_any (s : list ascii) : like_chars ["%"%char] s = true.
Proof.
  induction s as [ | a s IH]; [reflexivity|].
  rewrite like_chars_percent, IH. apply orb_true_r.
Qed.

Lemma like_prefix (x : string) :
  wildcard_free x = true ->
  forall s, like_chars (list_ascii_of_string x ++ ["%"%char]) s
            = prefix_ci (list_ascii_of_string x) s.
Proof.
  induction x as [ | c x IH]; cbn [wildcard_free list_ascii_of_string app].
  - intros _ s. rewrite like_percent_any. reflexivity.
  - intros H s. apply andb_true_iff in H as [Hc Hx].
    apply negb_true_iff in Hc.
    rewrite like_chars_literal by exact Hc.
    destruct s as [ | d s]; [reflexivity|].
    cbn [prefix_ci]. now rewrite IH.
Qed.

Lemma like_infix (x : string) :
  wildcard_free x = true ->
  forall s, like_chars ("%"%char :: list_ascii_of_string x ++ ["%"%char]) s
            = infix_ci (list_ascii_of_string x) s.
Proof.
  intros Hx s. induction s as [ | a s IH];
    rewrite like_chars_percent, like_prefix by exact Hx.
  - reflexivity.
  - cbn [infix_ci]. now rewrite IH.
Qed.

Lemma list_ascii_of_string_app (a b : string) :
  list_ascii_of_string (a ++ b)
  = (list_ascii_of_string a ++ list_ascii_of_string b)%list.
Proof. induction a as [ | c a IH]; simpl; [ | rewrite IH]; reflexivity. Qed.

Lemma lower_ascii_idempotent (c : ascii) :
  lower_ascii (lower_ascii c) = lower_ascii c.
Proof. destruct c as [[] [] [] [] [] [] [] []]; reflexivity. Qed.

(** Python's lower case leaves no ASCII capital and makes no wildcard. *)
Lemma lower_byte_folded (lead c : ascii) :
  lower_ascii (lower_byte lead c) = lower_byte lead c.
Proof.
  unfold lower_byte. destruct (Ascii.eqb lead _);
    destruct c as [[] [] [] [] [] [] [] []]; reflexivity.
Qed.

Lemma is_wildcard_lower_byte (lead c : ascii) :
  is_wildcard (lower_byte lead c) = is_wildcard c.
Proof.
  unfold lower_byte. destruct (Ascii.eqb lead _);
    destruct c as [[] [] [] [] [] [] [] []]; reflexivity.
Qed.

Lemma wildcard_free_lower_after (lead : ascii) (x : string) :
  wildcard_free (lower_after lead x) = wildcard_free x.
Proof.
  revert lead. induction x as [ | c x IH]; intros lead; [reflexivity|].
  cbn [lower_after wildcard_free]. now rewrite is_wildcard_lower_byte, IH.
Qed.

Lemma wildcard_free_lower (x : string) :
  wildcard_free (lower x) = wildcard_free x.
Proof. apply wildcard_free_lower_after. Qed.

Lemma prefix_ci_lower (lead : ascii) (x s : string) :
  prefix_ci (list_ascii_of_string (lower_after lead x))
            (list_ascii_of_string (sql_lower s))
  = String.prefix (lower_after lead x) (sql_lower s).
Proof.
  revert lead s. induction x as [ | c x IH]; intros lead s.
  - destruct s; reflexivity.
  - destruct s as [ | d s]; [reflexivity|].
    cbn [lower_after sql_lower list_ascii_of_string prefix_ci String.prefix].
    rewrite lower_byte_folded, lower_ascii_idempotent, IH.
    destruct (ascii_dec (lower_byte lead c) (lower_ascii d)) as [E | E].
    + rewrite E, Ascii.eqb_refl. reflexivity.
    + apply Ascii.eqb_neq in E. now rewrite E.
Qed.

Lemma infix_ci_lower (x s : string) :
  infix_ci (list_ascii_of_string (lower x))
           (list_ascii_of_string (sql_lower s))
  = contains (lower x) (sql_lower s).
Proof.
  unfold lower. induction s as [ | d s IH].
  - pose proof (prefix_ci_lower Ascii.zero x "") as E.
    cbn [sql_lower list_ascii_of_string] in E.
    cbn [sql_lower list_ascii_of_string infix_ci contains]. now rewrite E.
  - pose proof (prefix_ci_lower Ascii.zero x (String d s)) as E.
    cbn [sql_lower list_ascii_of_string] in E.
    cbn [sql_lower list_ascii_of_string infix_ci contains].
    now rewrite IH, E.
Qed.

(** For a name without [%] and [_], the LIKE test of the query is the
    containment of the lowered name in the product name as SQLite
    lowers it. *)
Lemma sql_like_contains (nom product_name : string) :
  wildcard_free nom = true ->
  sql_like (sql_lower product_name) ("%" ++ lower nom ++ "%")
  = contains (lower nom) (sql_lower product_name).
Proof.
  intros H. unfold sql_like.
  cbn [append list_ascii_of_string].
  rewrite list_ascii_of_string_app. cbn [list_ascii_of_string].
  rewrite like_infix by (now rewrite wildcard_free_lower).
  apply infix_ci_lower.
Qed.

Lemma find_pointwise {A : Type} (f g : A -> bool) (l : list A) :
  (forall a, In a l -> f a = g a) -> find f l = find g l.
Proof.
  intros H. induction l as [ | a l IH]; simpl; [reflexivity|].
  rewrite H by now left. rewrite IH; [reflexivity|].
  intros b Hb. apply H. now right.
Qed.

(** For a name without [%] and [_], and a catalog whose names carry no
    capital letter outside ASCII (those SQLite's [lower] leaves as they
    are), the query is the resolver of the specification. *)
Lemma find_produit_resolves (boutique : string) (nom : string)
    (s : Session) :
  wildcard_free nom = true ->
  (forall p, In p (produits (stored s)) ->
             lower (p_nom p) = sql_lower (p_nom p)) ->
  find_produit boutique (lower nom) s
  = resolve_product boutique nom (produits (stored s)).
Proof.
  intros H Hnames. unfold find_produit, resolve_product.
  apply find_pointwise.
  intros p Hp. rewrite (sql_like_contains nom (p_nom p) H).
  unfold is_catalog_row, contains_ci. rewrite (Hnames p Hp).
  destruct (String.eqb (p_boutique_id p) boutique), (p_active p),
    (p_deleted_at p), (contains (lower nom) (sql_lower (p_nom p)));
    reflexivity.
Qed.

(** The two sale feedbacks never coincide. *)
Lemma not_found_is_not_insufficient (en : bool) (nom : string)
    (produit : Produit) :
  produit_non_trouve en nom <> stock_insuffisant en produit.
Proof. destruct en; discriminate. Qed.

(** ** Further scenarios *)

Lemma sale_quantity_validation_witness :
  let req := chat_request "sold some riz" in
  let details := sale_details "riz" PyNone in
  let intent := make_intent "vente" details (PyFloat (FFin (7 # 8))) in
  auto_record_transactions req = true
  /\ recent_auto_tx_count req (boutique 10) < 10
  /\ clean (boutique 10)
  /\ passes_gate intent
  /\ number_rejected (dict_get details "quantite") 1
  /\ turn_on intent req conversational_reply (boutique 10)
     = Ok (boutique 10,
           [("response",
             PyStr (reply_with_feedback "Well done!"
                      "Specify the quantity (e.g., '2 bags of rice')."));
            ("suggestions", PyList [])]).
Proof.
  intros req details intent.
  assert (Hauto : auto_record_transactions req = true) by reflexivity.
  assert (Hcount : recent_auto_tx_count req (boutique 10) < 10)
    by reflexivity.
  assert (Hclean : clean (boutique 10)) by reflexivity.
  assert (Hgate : passes_gate intent)
    by (split; [reflexivity | vm_compute; discriminate]).
  assert (Hrej : number_rejected (dict_get details "quantite") 1)
    by (left; reflexivity).
  repeat (split; [assumption|]).
  exact (proj2 (sale_quantity_validation
                  (answering (PyDict intent)) no_prompt no_prompt
                  model_client req conversational_reply (boutique 10)
                  intent Hauto Hcount eq_refl Hclean)
               details "riz" "Well done!" Hgate (conj eq_refl eq_refl)
               eq_refl ltac:(vm_compute; discriminate) Hrej eq_refl).
Defined.

(** C7, as stated, fails: a quantity of 2.5 is not an integer, and the
    turn records a sale of 2 and takes 2 from the stock. *)
Lemma fractional_quantity_is_recorded :
  let req := chat_request "sold two and a half riz" in
  let quantite := PyFloat (FFin (5 # 2)) in
  let intent := make_intent "vente" (sale_details "riz" quantite)
                  (PyFloat (FFin (7 # 8))) in
  ~ integer_at_least_one quantite
  /\ exists s' r,
       turn_on intent req conversational_reply (boutique 10) = Ok (s', r)
       /\ map v_quantite (ventes (stored s')) = [2]
       /\ map p_quantite_stock (produits (stored s')) = [8]
       /\ dict_lookup "response" r
          = Some (PyStr "Got it! Sale recorded: 2x riz = 30 000 FCFA 💪").
Proof.
  intros req quantite intent. split.
  - intros (n & E & _). discriminate E.
  - do 2 eexists. split; [vm_compute; reflexivity|]. repeat split.
Qed.



(** C8, at the failing inputs. An expense of 500 with the category "x",
    or with the category 5, passes the gate and the amount test, fails
    the category test, and the turn returns the database and the
    conversational reply as they were: no row, and no instruction. *)
Theorem expense_invalid_category_is_silent :
  let req := chat_request "Expense electricity 500 FCFA" in
  let confident := PyFloat (FFin (7 # 8)) in
  turn_on (make_intent "depense" (expense_details (PyInt 500) (PyStr "x"))
             confident)
    req conversational_reply (boutique 10)
  = Ok (boutique 10, conversational_reply)
  /\ turn_on (make_intent "depense" (expense_details (PyInt 500) (PyInt 5))
                confident)
       req conversational_reply (boutique 10)
     = Ok (boutique 10, conversational_reply)
  /\ (exists r,
        turn_on (make_intent "depense"
                   (expense_details (PyInt 50) (PyStr "x")) confident)
          req conversational_reply (boutique 10)
        = Ok (boutique 10, r)
        /\ dict_lookup "response" r
           = Some (PyStr (reply_with_feedback "Well done!"
                            (precisez_depense true)))).
Proof.
  intros req confident. split; [ | split].
  - vm_compute. reflexivity.
  - vm_compute. reflexivity.
  - eexists. split; [vm_compute; reflexivity | reflexivity].
Qed.

(** C5, at the failing input. The extracted name "r_z" is contained in no
    product name, so the resolver of the specification finds nothing;
    the query of the code takes [_] for a wildcard, returns the product
    "riz", and the turn records its sale. *)
Theorem wildcard_name_resolves_a_product :
  let req := chat_request "sold 2 r_z" in
  let intent := make_intent "vente" (sale_details "r_z" (PyInt 2))
                  (PyFloat (FFin (7 # 8))) in
  contains_ci "r_z" "riz" = false
  /\ resolve_product "b1" "r_z" (produits (stored (boutique 10))) = None
  /\ find_produit "b1" (lower "r_z") (boutique 10) = Some (riz 10)
  /\ exists s' r,
       turn_on intent req conversational_reply (boutique 10) = Ok (s', r)
       /\ map v_produit_id (ventes (stored s')) = ["p-riz"]
       /\ map p_quantite_stock (produits (stored s')) = [8].
Proof.
  intros req intent. repeat (split; [reflexivity|]).
  do 2 eexists. split; [vm_compute; reflexivity|]. split; reflexivity.
Qed.

(** ** The calls of the interface keep the books consistent *)


Lemma query_produit_In (id boutique : string) (s : Session) (p : Produit) :
  query_produit id boutique s = Some p ->
  In p (produits (stored s)) /\ p_id p = id /\ p_boutique_id p = boutique
  /\ p_deleted_at p = None.
Proof.
  unfold query_produit. intros H. apply find_some in H as [Hin Hp].
  apply andb_true_iff in Hp as [Hp Hdel].
  apply andb_true_iff in Hp as [Hid Hb].
  apply String.eqb_eq in Hid, Hb.
  destruct (p_deleted_at p); [discriminate|]. auto.
Qed.



Lemma query_vente_In (id boutique : string) (s : Session) (v : Vente) :
  query_vente id boutique s = Some v ->
  In v (ventes (stored s)) /\ v_id v = id /\ v_boutique_id v = boutique
  /\ v_deleted_at v = None.
Proof.
  unfold query_vente. intros H. apply find_some in H as [Hin Hv].
  apply andb_true_iff in Hv as [Hv Hdel].
  apply andb_true_iff in Hv as [Hid Hb].
  apply String.eqb_eq in Hid, Hb.
  destruct (v_deleted_at v); [discriminate|]. auto.
Qed.

Lemma query_dette_In (id boutique : string) (s : Session) (d : Dette) :
  query_dette id boutique s = Some d ->
  In d (dettes (stored s)) /\ dt_id d = id /\ dt_boutique_id d = boutique
  /\ dt_deleted_at d = None.
Proof.
  unfold query_dette. intros H. apply find_some in H as [Hin Hd].
  apply andb_true_iff in Hd as [Hd Hdel].
  apply andb_true_iff in Hd as [Hid Hb].
  apply String.eqb_eq in Hid, Hb.
  destruct (dt_deleted_at d); [discriminate|]. auto.
Qed.

(** A commit either stores the unit of work or raises; the audit commit
    binds no integer. *)
Ltac commit_cases :=
  unfold after_commit, log_audit_values, db_commit;
  change (forallb sqlite_integer []) with true; cbv iota;
  match goal with
  | |- context [if ?fits then Ok _ else Raise OverflowError] =>
      destruct fits eqn:?
  | _ => idtac
  end.




(** ** Rows found by their primary key *)

Lemma NoDup_map_injective {A B : Type} (f : A -> B) (l : list A) (x y : A) :
  NoDup (map f l) -> In x l -> In y l -> f x = f y -> x = y.
Proof.
  induction l as [ | a l IH]; cbn [map]; intros Hnd Hx Hy Hf;
    [contradiction|].
  inversion Hnd as [ | b bs Hnotin Hnd']; subst.
  destruct Hx as [-> | Hx], Hy as [-> | Hy]; auto.
  - exfalso. apply Hnotin. rewrite Hf. now apply in_map.
  - exfalso. apply Hnotin. rewrite <- Hf. now apply in_map.
Qed.


Lemma update_stock_twice (id : string) (a b : Z) (rows : list Produit) :
  update_stock id a (update_stock id b rows) = update_stock id a rows.
Proof.
  unfold update_stock. rewrite map_map. apply map_ext.
  intros p. destruct (String.eqb (p_id p) id) eqn:E; cbn; now rewrite E.
Qed.




Lemma after_commit_Respond {S A : Type} (committed : outcome Session)
    (before : S) (rest : Session -> http S A) (a : A) (s' : S) :
  after_commit committed before rest = Respond a s' ->
  exists s0, committed = Ok s0 /\ rest s0 = Respond a s'.
Proof. destruct committed; cbn; intros H; [eauto | discriminate]. Qed.

Lemma db_commit_Ok (bound : list Z) (s s' : Session) :
  db_commit bound s = Ok s' -> storable bound /\ s' = flushed s.
Proof.
  unfold db_commit, storable. intros H.
  destruct (forallb sqlite_integer bound); [ | discriminate].
  injection H as <-. auto.
Qed.

(** What is left of an endpoint once its first commit went through. *)
Ltac committed H :=
  let s0 := fresh "s0" in
  let Hcommit := fresh "Hcommit" in
  let Hbound := fresh "Hbound" in
  apply after_commit_Respond in H as (s0 & Hcommit & H);
  apply db_commit_Ok in Hcommit as [Hbound ->];
  unfold after_commit, log_audit_values, db_commit in H;
  cbn [forallb] in H.



(** ** Sales and their cancellation *)



Lemma query_vente_deleted (req : Request) (id : string) (now : Z)
    (sales : list Vente) :
  find (fun v => String.eqb (v_id v) id
                 && String.eqb (v_boutique_id v) (boutique_id req)
                 && is_none (v_deleted_at v))
       (map (fun v => if String.eqb (v_id v) id then mark_deleted now v
                      else v) sales)
  = None.
Proof.
  induction sales as [ | v sales IH]; [reflexivity|].
  cbn [map find]. destruct (String.eqb (v_id v) id) eqn:E.
  - cbn. rewrite E, andb_false_r. exact IH.
  - rewrite E. cbn [andb]. exact IH.
Qed.

(** X4. A sale is cancelled once: a second [DELETE] of the same sale is
    answered 404 and changes nothing, so the stock is not given back
    twice. *)
Theorem delete_vente_only_once (req req' : Request) (vente_id : string)
    (s s1 : Session) (r : pydict) :
  delete_vente req vente_id s = Respond r s1 ->
  delete_vente req' vente_id s1 = Abort 404 "Vente non trouvée" s1.
Proof.
  intros Hdelete. unfold delete_vente in Hdelete.
  destruct (query_vente vente_id (boutique_id req) s) as [v|] eqn:Hq;
    [ | discriminate].
  apply query_vente_In in Hq as (_ & Hid & _).
  committed Hdelete. injection Hdelete as _ <-.
  unfold delete_vente.
  assert (Hnone : forall s0 audit,
            query_vente vente_id (boutique_id req')
              (flushed (db_add_audit audit
                 (flushed (set_vente_deleted (v_id v) (utcnow req) s0))))
            = None).
  { intros s0 audit. unfold query_vente. cbn. rewrite Hid.
    apply query_vente_deleted. }
  now rewrite Hnone.
Qed.

(** ** Stock adjustments and deleted products *)

Lemma query_produit_updated (id boutique : string) (q : Z) (s : Session)
    (p : Produit) (rows : list Produit) :
  find (fun x => String.eqb (p_id x) id
                 && String.eqb (p_boutique_id x) boutique
                 && is_none (p_deleted_at x)) rows = Some p ->
  find (fun x => String.eqb (p_id x) id
                 && String.eqb (p_boutique_id x) boutique
                 && is_none (p_deleted_at x))
       (update_stock (p_id p) q rows)
  = Some (with_stock p q).
Proof.
  unfold update_stock.
  induction rows as [ | x rows IH]; cbn [find map]; [discriminate|].
  destruct (String.eqb (p_id x) id && String.eqb (p_boutique_id x) boutique
            && is_none (p_deleted_at x)) eqn:E.
  - intros H. injection H as ->. rewrite String.eqb_refl. cbn.
    now rewrite E.
  - intros H. specialize (IH H).
    destruct (String.eqb (p_id x) (p_id p)) eqn:Ep.
    + apply String.eqb_eq in Ep.
      apply find_some in H as [_ Hp].
      apply andb_true_iff in Hp as [Hp _].
      apply andb_true_iff in Hp as [Hid _]. apply String.eqb_eq in Hid.
      cbn. rewrite Ep, Hid in *. rewrite E. exact IH.
    + rewrite E. exact IH.
Qed.

Lemma storable_updated (old new : Z) :
  storable (updated old new) <-> old = new \/ sqlite_integer new = true.
Proof.
  unfold storable, updated. destruct (Z.eqb_spec old new) as [E | E].
  - split; auto.
  - cbn [forallb]. rewrite andb_true_r. split; [auto | now intros [ | ]].
Qed.

(** X5. Two accepted adjustments of the same product add up: the state
    and the answer after adjusting by [a] and then by [b] are those of
    one adjustment by [a + b]. *)
Theorem stock_adjustments_add_up (req : Request) (produit_id : string)
    (a b : Z) (s s1 s2 : Session) (r1 r2 : pydict) :
  clean s ->
  update_stock_endpoint req produit_id a s = Respond r1 s1 ->
  update_stock_endpoint req produit_id b s1 = Respond r2 s2 ->
  update_stock_endpoint req produit_id (a + b) s = Respond r2 s2.
Proof.
  unfold clean. intros Hclean H1 H2.
  unfold update_stock_endpoint in *.
  destruct (query_produit produit_id (boutique_id req) s) as [p|] eqn:Hq;
    [ | discriminate].
  destruct (Z.ltb_spec (p_quantite_stock p + a) 0); [discriminate|].
  committed H1. rename Hbound into Ha. injection H1 as _ <-.
  assert (Hq1 : query_produit produit_id (boutique_id req)
                  (flushed (set_quantite_stock (p_id p)
                              (p_quantite_stock p + a) s))
                = Some (with_stock p (p_quantite_stock p + a))).
  { unfold query_produit in *. cbn. rewrite Hclean.
    now apply query_produit_updated. }
  rewrite Hq1 in H2. cbn [with_stock p_quantite_stock p_id] in H2.
  destruct (Z.ltb_spec (p_quantite_stock p + a + b) 0); [discriminate|].
  committed H2. rename Hbound into Hb. injection H2 as <- <-.
  destruct (Z.ltb_spec (p_quantite_stock p + (a + b)) 0); [lia|].
  assert (Hab : storable (updated (p_quantite_stock p)
                            (p_quantite_stock p + (a + b)))).
  { apply storable_updated. apply storable_updated in Ha, Hb.
    rewrite Z.add_assoc.
    destruct Hb as [Eb | Hb]; [ | now right].
    destruct Ha as [Ea | Ha]; [left; lia | right; now rewrite <- Eb]. }
  unfold db_commit. unfold storable in Hab. rewrite Hab.
  cbn [after_commit]. rewrite Z.add_assoc. f_equal.
  unfold flushed, set_quantite_stock, on_work.
  cbn [work stored produits ventes depenses dettes audit_logs chat_logs].
  now rewrite update_stock_twice.
Qed.

Lemma In_firstn {A : Type} (n : nat) (l : list A) (x : A) :
  In x (firstn n l) -> In x l.
Proof.
  revert l. induction n as [ | n IH]; intros l H; [contradiction|].
  destruct l as [ | a l]; [contradiction|].
  cbn in H. destruct H as [-> | H]; [now left | right; auto].
Qed.

Lemma retired_not_found (boutique : string) (nom_lower : string)
    (id : string) (now : Z) (rows : list Produit) (x : Produit) :
  find (fun p => String.eqb (p_boutique_id p) boutique
                 && sql_like (sql_lower (p_nom p)) ("%" ++ nom_lower ++ "%")
                 && p_active p
                 && match p_deleted_at p with None => true | Some _ => false end)
       (map (fun p => if String.eqb (p_id p) id then retire now p else p)
            rows)
  = Some x ->
  p_id x <> id.
Proof.
  intros H. apply find_some in H as [Hin Hx].
  apply in_map_iff in Hin as (p & Ep & _).
  destruct (String.eqb_spec (p_id p) id) as [E | E].
  - subst x. cbn in Hx. now rewrite andb_false_r in Hx.
  - now subst x.
Qed.

(** X6. Once a product is deleted, no path sells it: a manual sale of it
    is answered 404 with nothing changed, it is not offered to the
    extractor, and every sale a later chat turn adds is of another
    product. *)
Theorem deleted_product_is_not_sold
    (json_loads : string -> outcome pyval)
    (prompt_en prompt_fr : string -> string -> string)
    (get_client : option Client)
    (req : Request) (produit_id : string) (s s1 : Session) (r : pydict) :
  clean s ->
  delete_produit req produit_id s = Respond r s1 ->
  (forall req' quantite,
     create_vente req' produit_id quantite s1
     = Abort 404 "Produit non trouvé" s1)
  /\ (forall req' e,
        In e (produits_for_detection req' s1) -> e_id e <> produit_id)
  /\ (forall req' result s2 r2,
        chatbot_autorecord json_loads prompt_en prompt_fr get_client
          req' result s1 = Ok (s2, r2) ->
        exists added,
          ventes (stored s2) = (ventes (stored s1) ++ added)%list
          /\ Forall (fun v => v_produit_id v <> produit_id) added).
Proof.
  unfold clean. intros Hclean Hdelete. unfold delete_produit in Hdelete.
  destruct (query_produit produit_id (boutique_id req) s) as [p|] eqn:Hq;
    [ | discriminate].
  apply query_produit_In in Hq as (_ & Hid & _).
  committed Hdelete. injection Hdelete as _ <-. rewrite Hid.
  split; [ | split].
  - intros req' quantite. unfold create_vente.
    assert (Hnone : forall s0 audit,
              query_produit produit_id (boutique_id req')
                (flushed (db_add_audit audit
                   (flushed (set_produit_deleted produit_id
                               (utcnow req) s0))))
              = None).
    { intros. unfold query_produit. cbn.
      induction (produits (work s0)) as [ | x rows IH]; [reflexivity|].
      cbn [map find]. destruct (String.eqb (p_id x) produit_id) eqn:E.
      - cbn. rewrite E, andb_false_r. exact IH.
      - rewrite E. cbn [andb]. exact IH. }
    now rewrite Hnone.
  - intros req' e He. unfold produits_for_detection in He.
    apply in_map_iff in He as (x & <- & Hx). cbn.
    apply In_firstn in Hx. apply filter_In in Hx as [Hin Hrow].
    cbn in Hin. apply in_map_iff in Hin as (y & Ey & _).
    destruct (String.eqb_spec (p_id y) produit_id) as [E | E].
    + subst x. unfold is_catalog_row in Hrow. cbn in Hrow.
      now rewrite andb_false_r in Hrow.
    + now subst x.
  - intros req' result s2 r2 Hturn.
    apply turn_ledger_cases in Hturn; [ | reflexivity].
    destruct Hturn
      as [-> | [(nom & x & q & Hfind & _ & Hledger & _)
               | [(c & m & d & _ & _ & Hledger)
                 | (c & m & _ & _ & Hledger)]]];
      try (unfold ledger in Hledger; injection Hledger as _ Hv _ _).
    + exists []. now rewrite app_nil_r.
    + exists [new_vente req' x q]. split; [exact Hv|].
      constructor; [ | constructor]. cbn.
      unfold find_produit in Hfind. cbn in Hfind.
      eapply retired_not_found. exact Hfind.
    + exists []. now rewrite app_nil_r, Hv.
    + exists []. now rewrite app_nil_r, Hv.
Qed.


Lemma find_produit_row (boutique nom_lower : string) (s : Session)
    (p : Produit) :
  find_produit boutique nom_lower s = Some p ->
  In p (produits (stored s)) /\ p_boutique_id p = boutique
  /\ p_active p = true /\ p_deleted_at p = None.
Proof.
  unfold find_produit. intros H. apply find_some in H as [Hin Hp].
  apply andb_true_iff in Hp as [Hp Hdel].
  apply andb_true_iff in Hp as [Hp Hactive].
  apply andb_true_iff in Hp as [Hb _]. apply String.eqb_eq in Hb.
  destruct (p_deleted_at p); [discriminate|]. auto.
Qed.



(** ** Debts and their payments *)

Lemma total_paye_app (id : string) (paiements : list PaiementDette)
    (p : PaiementDette) :
  total_paye id (paiements ++ [p])
  = total_paye id paiements
    + (if String.eqb (pd_dette_id p) id then pd_montant_paye p else 0).
Proof.
  unfold total_paye. rewrite filter_app, map_app, fold_right_app.
  cbn [filter]. destruct (String.eqb (pd_dette_id p) id); cbn.
  - induction (map pd_montant_paye (filter _ paiements)) as [ | x l IH];
      cbn; lia.
  - lia.
Qed.

(** X8. A payment keeps the accounts of every debt: when each debt's
    initial amount is its balance plus the payments made on it, and debt
    ids are unique, the same holds after [payer_dette], whether the
    payment was accepted or refused, and the ids stay unique. *)
Theorem payer_dette_keeps_balance (req : Request) (dette_id : string)
    (montant_paye : Z) (b : Books) :
  clean (fst b) ->
  unique_dette_ids (fst b) ->
  balanced b ->
  let b' := state_after (payer_dette req dette_id montant_paye b) in
  balanced b' /\ unique_dette_ids (fst b') /\ clean (fst b').
Proof.
  destruct b as [s paiements]. unfold clean, unique_dette_ids, balanced.
  cbn [fst snd]. intros Hclean Hnd Hbal.
  unfold payer_dette.
  destruct (query_dette dette_id (boutique_id req) s) as [d|] eqn:Hq;
    [ | now cbn].
  destruct (Z.ltb_spec (dt_montant_restant d) montant_paye); [now cbn|].
  apply query_dette_In in Hq as (Hin & _).
  commit_cases; [ | now cbn].
  cbn -[total_paye]. rewrite Hclean. split; [ | split; [ | reflexivity]].
  - apply Forall_forall. intros y Hy.
    apply in_map_iff in Hy as (x & <- & Hx).
    rewrite Forall_forall in Hbal. pose proof (Hbal x Hx) as Hxbal.
    rewrite total_paye_app. cbn [pd_dette_id pd_montant_paye].
    destruct (String.eqb_spec (dt_id x) (dt_id d)) as [E | E].
    + rewrite (NoDup_map_injective dt_id _ x d Hnd Hx Hin E) in *.
      cbn. rewrite String.eqb_refl. lia.
    + destruct (String.eqb_spec (dt_id d) (dt_id x)); [congruence|]. lia.
  - rewrite map_map.
    erewrite map_ext; [exact Hnd|].
    intros x. now destruct (String.eqb (dt_id x) (dt_id d)).
Qed.

Lemma query_dette_updated (id boutique : string) (restant : Z)
    (statut : string) (d : Dette) (rows : list Dette) :
  find (fun x => String.eqb (dt_id x) id
                 && String.eqb (dt_boutique_id x) boutique
                 && is_none (dt_deleted_at x)) rows = Some d ->
  find (fun x => String.eqb (dt_id x) id
                 && String.eqb (dt_boutique_id x) boutique
                 && is_none (dt_deleted_at x))
       (map (fun x => if String.eqb (dt_id x) (dt_id d)
                      then with_balance x restant statut else x) rows)
  = Some (with_balance d restant statut).
Proof.
  induction rows as [ | x rows IH]; cbn [find map]; [discriminate|].
  destruct (String.eqb (dt_id x) id && String.eqb (dt_boutique_id x) boutique
            && is_none (dt_deleted_at x)) eqn:E.
  - intros H. injection H as ->. rewrite String.eqb_refl. cbn.
    now rewrite E.
  - intros H. specialize (IH H).
    destruct (String.eqb (dt_id x) (dt_id d)) eqn:Ed.
    + apply String.eqb_eq in Ed.
      apply find_some in H as [_ Hd].
      apply andb_true_iff in Hd as [Hd _].
      apply andb_true_iff in Hd as [Hid _]. apply String.eqb_eq in Hid.
      cbn. rewrite Ed, Hid in *. rewrite E. exact IH.
    + rewrite E. exact IH.
Qed.

(** X9. A payment is accepted exactly when the debt exists and the amount
    does not exceed its balance; the new balance is the old one minus the
    amount, the status becomes [soldee] exactly when that balance is
    zero, and a debt paid off takes no further payment: any amount of at
    least 1 is answered 400 with nothing changed. *)
Theorem payer_dette_settles (req req' : Request) (dette_id : string)
    (montant_paye : Z) (b b1 : Books) (r : pydict) :
  clean (fst b) ->
  boutique_id req' = boutique_id req ->
  payer_dette req dette_id montant_paye b = Respond r b1 ->
  exists dette,
    query_dette dette_id (boutique_id req) (fst b) = Some dette
    /\ montant_paye <= dt_montant_restant dette
    /\ let restant := dt_montant_restant dette - montant_paye in
       let statut := if restant =? 0 then "soldee" else dt_statut dette in
       r = [("nouveau_solde", PyInt restant); ("statut", PyStr statut);
            ("paiement_id", PyStr (row_uuid req))]
       /\ query_dette dette_id (boutique_id req) (fst b1)
          = Some (with_balance dette restant statut)
       /\ (restant = 0 ->
           forall montant,
             1 <= montant ->
             payer_dette req' dette_id montant b1
             = Abort 400 "Montant supérieur à la dette restante" b1).
Proof.
  destruct b as [s paiements]. unfold clean. cbn [fst].
  intros Hclean Hb Hpay. unfold payer_dette in Hpay.
  destruct (query_dette dette_id (boutique_id req) s) as [d|] eqn:Hq;
    [ | discriminate].
  destruct (Z.ltb_spec (dt_montant_restant d) montant_paye); [discriminate|].
  committed Hpay. injection Hpay as <- <-. exists d.
  split; [reflexivity|]. split; [assumption|]. cbn zeta.
  split; [reflexivity|].
  assert (Hq1 : forall who audit,
            boutique_id who = boutique_id req ->
            query_dette dette_id (boutique_id who)
              (flushed (db_add_audit audit
                 (flushed
                    (set_dette_balance (dt_id d)
                       (dt_montant_restant d - montant_paye)
                       (if dt_montant_restant d - montant_paye =? 0
                        then "soldee" else dt_statut d) s))))
            = Some (with_balance d (dt_montant_restant d - montant_paye)
                      (if dt_montant_restant d - montant_paye =? 0
                       then "soldee" else dt_statut d))).
  { intros who audit Hwho. unfold query_dette in *. cbn.
    rewrite Hclean, Hwho. now apply query_dette_updated. }
  split; [now apply Hq1|].
  intros Hzero montant Hmontant. unfold payer_dette.
  rewrite (Hq1 req' _ Hb). cbn [with_balance dt_montant_restant].
  rewrite Hzero.
  destruct (Z.ltb_spec 0 montant); [reflexivity | lia].
Qed.

(** ** What else a chat turn guarantees *)

Lemma str_take_chars (n : nat) (s : string) :
  chars (str_take n s) = Nat.min n (chars s).
Proof.
  revert n. induction s as [ | c s IH]; intros n.
  - cbn. now rewrite Nat.min_0_r.
  - cbn [str_take chars]. destruct (is_continuation c) eqn:E.
    + cbn [chars]. rewrite E. apply IH.
    + destruct n as [ | n]; [reflexivity|].
      cbn [chars]. rewrite E, IH. reflexivity.
Qed.

Lemma len_str_take (n : nat) (s : string) :
  len (str_take n s) = Z.min (Z.of_nat n) (len s).
Proof. unfold len. rewrite str_take_chars. lia. Qed.

(** Every turn that returns, with the integers that its commit bound. *)
Lemma turn_ledger_bound
    (json_loads : string -> outcome pyval)
    (prompt_en prompt_fr : string -> string -> string)
    (get_client : option Client)
    (req : Request) (result : pydict) (s s' : Session) (r : pydict) :
  clean s ->
  chatbot_autorecord json_loads prompt_en prompt_fr get_client req result s
  = Ok (s', r) ->
  s' = s
  \/ (exists produit quantite,
        1 <= quantite <= p_quantite_stock produit
        /\ storable (vente_bound produit (new_vente req produit quantite))
        /\ ledger s'
           = (update_stock (p_id produit)
                (p_quantite_stock produit - quantite)
                (produits (stored s)),
              (ventes (stored s)
               ++ [new_vente req produit quantite])%list,
              depenses (stored s), dettes (stored s)))
  \/ (exists categorie montant description,
        2 <= len categorie /\ 100 <= montant /\ storable [montant]
        /\ ledger s'
           = (produits (stored s), ventes (stored s),
              (depenses (stored s)
               ++ [new_depense req categorie montant description])%list,
              dettes (stored s)))
  \/ (exists client_nom montant,
        2 <= len client_nom /\ 500 <= montant /\ storable [montant]
        /\ ledger s'
           = (produits (stored s), ventes (stored s), depenses (stored s),
              (dettes (stored s)
               ++ [new_dette req client_nom montant])%list)).
Proof.
  intros Hclean Hturn.
  apply turn_inv in Hturn as (t' & Hblock & _ & ->).
  apply auto_record_effect in Hblock.
  destruct Hblock
    as [ | msg Hmsg | nom produit quantite Hfind Hq Hbound
       | categorie montant description Hlen Hm Hbound
       | client_nom montant Hlen Hm Hbound].
  - now left.
  - now left.
  - right; left. exists produit, quantite.
    repeat (split; [assumption|]). now apply commit_vente_ledger.
  - right; right; left. exists categorie, montant, description.
    repeat (split; [assumption|]). now apply commit_depense_ledger.
  - right; right; right. exists client_nom, montant.
    repeat (split; [assumption|]). now apply commit_dette_ledger.
Qed.

Lemma storable_one (m : Z) : storable [m] -> sqlite_integer m = true.
Proof.
  unfold storable. cbn [forallb]. now rewrite andb_true_r.
Qed.

(** X10. The rows a chat turn adds satisfy the bounds the manual forms put
    on their bodies, and fit the columns that hold them: a sale of at
    least one unit, an expense of at least 100 with a category of two
    characters or more and a description of at most 500, a debt of at
    least 500 whose client name has between 2 and 100 characters, all
    amounts being 64-bit integers; a turn adds at most one row, and
    every added row belongs to the account of the request. *)
Theorem recorded_rows_satisfy_form_bounds
    (json_loads : string -> outcome pyval)
    (prompt_en prompt_fr : string -> string -> string)
    (get_client : option Client)
    (req : Request) (result : pydict) (s s' : Session) (r : pydict) :
  clean s ->
  chatbot_autorecord json_loads prompt_en prompt_fr get_client req result s
  = Ok (s', r) ->
  exists sales expenses debts,
    ventes (stored s') = (ventes (stored s) ++ sales)%list
    /\ depenses (stored s') = (depenses (stored s) ++ expenses)%list
    /\ dettes (stored s') = (dettes (stored s) ++ debts)%list
    /\ (List.length sales + List.length expenses + List.length debts <= 1)%nat
    /\ Forall (fun v => 1 <= v_quantite v
                        /\ sqlite_integer (v_montant_total v) = true
                        /\ v_boutique_id v = boutique_id req
                        /\ v_id v = row_uuid req) sales
    /\ Forall (fun d => 100 <= dp_montant d < 2 ^ 63
                        /\ 2 <= len (dp_categorie d)
                        /\ len (dp_description d) <= 500
                        /\ dp_boutique_id d = boutique_id req) expenses
    /\ Forall (fun d => 500 <= dt_montant_initial d < 2 ^ 63
                        /\ 2 <= len (dt_nom_client d) <= 100
                        /\ dt_boutique_id d = boutique_id req) debts.
Proof.
  intros Hclean Hturn.
  apply turn_ledger_bound in Hturn; [ | exact Hclean].
  destruct Hturn
    as [-> | [(p & q & Hq & Hbound & Hledger)
             | [(c & m & d & Hlen & Hm & Hbound & Hledger)
               | (c & m & Hlen & Hm & Hbound & Hledger)]]];
    try (unfold ledger in Hledger; injection Hledger as _ Hv Hdp Hdt).
  - exists [], [], []. rewrite !app_nil_r. repeat split; auto.
  - exists [new_vente req p q], [], [].
    rewrite Hv, Hdp, Hdt, !app_nil_r. repeat split; auto.
    constructor; [ | constructor].
    unfold storable, vente_bound in Hbound. cbn [forallb] in Hbound.
    apply andb_true_iff in Hbound as [_ Hbound].
    apply andb_true_iff in Hbound as [_ Hbound].
    apply andb_true_iff in Hbound as [_ Hbound].
    apply andb_true_iff in Hbound as [Hbound _].
    cbn [new_vente v_quantite v_boutique_id v_id]. repeat split; try lia.
    exact Hbound.
  - exists [], [new_depense req c m d], [].
    rewrite Hv, Hdp, Hdt, !app_nil_r. repeat split; auto.
    constructor; [ | constructor].
    apply storable_one in Hbound. unfold sqlite_integer in Hbound.
    apply andb_true_iff in Hbound as [_ Hbound].
    apply Z.ltb_lt in Hbound.
    cbn [new_depense dp_montant dp_categorie dp_description
         dp_boutique_id].
    repeat split; try assumption.
    destruct d; try (cbn; lia).
    rewrite len_str_take. lia.
  - exists [], [], [new_dette req c m].
    rewrite Hv, Hdp, Hdt, !app_nil_r. repeat split; auto.
    constructor; [ | constructor].
    apply storable_one in Hbound. unfold sqlite_integer in Hbound.
    apply andb_true_iff in Hbound as [_ Hbound].
    apply Z.ltb_lt in Hbound.
    cbn [new_dette dt_montant_initial dt_nom_client dt_boutique_id].
    rewrite len_str_take. repeat split; try assumption; lia.
Qed.

Lemma dict_lookup_set_other (d : pydict) (k k' : string) (v : pyval) :
  k <> k' -> dict_lookup k (dict_set d k' v) = dict_lookup k d.
Proof.
  intros Hneq. induction d as [ | [k0 x] d IH]; cbn.
  - apply String.eqb_neq in Hneq. now rewrite Hneq.
  - destruct (String.eqb_spec k' k0) as [-> | E]; cbn.
    + apply String.eqb_neq in Hneq. now rewrite Hneq.
    + now rewrite IH.
Qed.

(** X11. Every automatic transaction is audited, and nothing else is: a
    turn either leaves ledgers and audit log as they were, or changes a
    ledger and appends exactly one audit row, of action [create_auto],
    for the row id of the request and the account of the request, whose
    values name the source "cecile". *)
Theorem recorded_transaction_is_audited
    (json_loads : string -> outcome pyval)
    (prompt_en prompt_fr : string -> string -> string)
    (get_client : option Client)
    (req : Request) (result : pydict) (s s' : Session) (r : pydict) :
  clean s ->
  chatbot_autorecord json_loads prompt_en prompt_fr get_client req result s
  = Ok (s', r) ->
  (s' = s /\ dict_lookup "transaction_recorded" r
             = dict_lookup "transaction_recorded" result)
  \/ exists table_name new_values descriptor,
       ledger s' <> ledger s
       /\ audit_logs (stored s')
          = (audit_logs (stored s)
             ++ [auto_audit req table_name new_values])%list
       /\ dict_lookup "source" new_values = Some (PyStr "cecile")
       /\ (table_name = "ventes" \/ table_name = "depenses"
           \/ table_name = "dettes")
       /\ dict_lookup "transaction_recorded" r = Some (PyDict descriptor)
       /\ dict_lookup "success" descriptor = Some (PyBool true).
Proof.
  unfold clean. intros Hclean Hturn.
  apply turn_inv in Hturn as (t' & Hblock & Hcompose & ->).
  apply auto_record_effect in Hblock.
  destruct Hblock
    as [ | msg Hmsg | nom p q Hfind Hq Hbound | c m d Hlen Hm Hbound
       | c m Hlen Hm Hbound].
  - left. cbn in Hcompose. injection Hcompose as <-. auto.
  - left. split; [reflexivity|].
    unfold compose_reply in Hcompose.
    cbn [t_transaction_recorded t_auto_tx_feedback t_result set_feedback
         entry truthy_dict negb andb] in Hcompose.
    rewrite Hmsg in Hcompose. cbn [andb] in Hcompose.
    destruct (truthy (dict_get result "response")).
    + apply bind_Ok in Hcompose as (v & _ & H). injection H as <-.
      now apply dict_lookup_set_other.
    + injection Hcompose as <-. now apply dict_lookup_set_other.
  - right. cbn in Hcompose. injection Hcompose as <-.
    do 3 eexists. split.
    + unfold ledger. cbn. rewrite Hclean. intros H.
      injection H as _ Hv. apply (f_equal (@List.length Vente)) in Hv.
      rewrite length_app in Hv. cbn in Hv. lia.
    + split; [cbn; now rewrite Hclean|].
      split; [reflexivity|]. split; [now left|].
      split; [apply dict_lookup_set | reflexivity].
  - right. cbn in Hcompose. injection Hcompose as <-.
    do 3 eexists. split.
    + unfold ledger. cbn. rewrite Hclean. intros H.
      injection H as Hv. apply (f_equal (@List.length Depense)) in Hv.
      rewrite length_app in Hv. cbn in Hv. lia.
    + split; [cbn; now rewrite Hclean|].
      split; [reflexivity|]. split; [right; now left|].
      split; [apply dict_lookup_set | reflexivity].
  - right. cbn in Hcompose. injection Hcompose as <-.
    do 3 eexists. split.
    + unfold ledger. cbn. rewrite Hclean. intros H.
      injection H as Hv. apply (f_equal (@List.length Dette)) in Hv.
      rewrite length_app in Hv. cbn in Hv. lia.
    + split; [cbn; now rewrite Hclean|].
      split; [reflexivity|]. split; [right; now right|].
      split; [apply dict_lookup_set | reflexivity].
Qed.




Lemma string_app_assoc (a b c : string) : (a ++ b) ++ c = a ++ b ++ c.
Proof. induction a as [ | x a IH]; cbn; [ | rewrite IH]; reflexivity. Qed.








(** ** The further properties, run *)




Lemma delete_vente_only_once_witness :
  let req := chat_request "cancel" in
  exists r s1,
    delete_vente req "row-1" sold_boutique = Respond r s1
    /\ map p_quantite_stock (produits (stored s1)) = [10]
    /\ delete_vente req "row-1" s1 = Abort 404 "Vente non trouvée" s1.
Proof.
  intros req.
  assert (Hdelete : exists r s1,
            delete_vente req "row-1" sold_boutique = Respond r s1
            /\ map p_quantite_stock (produits (stored s1)) = [10]).
  { do 2 eexists. split; [vm_compute; reflexivity | reflexivity]. }
  destruct Hdelete as (r & s1 & Hdelete & Hstock).
  exists r, s1. repeat (split; [assumption|]).
  exact (delete_vente_only_once req req "row-1" sold_boutique s1 r Hdelete).
Defined.

Lemma stock_adjustments_add_up_witness :
  let req := chat_request "restock" in
  clean (boutique 10)
  /\ exists r1 s1 r2 s2,
       update_stock_endpoint req "p-riz" 5 (boutique 10) = Respond r1 s1
       /\ update_stock_endpoint req "p-riz" (-3) s1 = Respond r2 s2
       /\ update_stock_endpoint req "p-riz" (5 + -3) (boutique 10)
          = Respond r2 s2
       /\ map p_quantite_stock (produits (stored s2)) = [12].
Proof.
  intros req.
  assert (Hclean : clean (boutique 10)) by reflexivity.
  assert (H1 : exists r1 s1,
            update_stock_endpoint req "p-riz" 5 (boutique 10)
            = Respond r1 s1)
    by (do 2 eexists; vm_compute; reflexivity).
  destruct H1 as (r1 & s1 & H1).
  assert (H2 : exists r2 s2,
            update_stock_endpoint req "p-riz" (-3) s1 = Respond r2 s2
            /\ map p_quantite_stock (produits (stored s2)) = [12]).
  { vm_compute in H1. injection H1 as _ <-.
    do 2 eexists. split; [vm_compute; reflexivity | reflexivity]. }
  destruct H2 as (r2 & s2 & H2 & Hstock).
  split; [exact Hclean|]. exists r1, s1, r2, s2.
  split; [exact H1|]. split; [exact H2|]. split; [ | exact Hstock].
  exact (stock_adjustments_add_up req "p-riz" 5 (-3) (boutique 10) s1 s2
           r1 r2 Hclean H1 H2).
Defined.

Lemma deleted_product_is_not_sold_witness :
  let req := chat_request "sold 2 riz" in
  clean (boutique 10)
  /\ exists r s1,
       delete_produit req "p-riz" (boutique 10) = Respond r s1
       /\ create_vente req "p-riz" 2 s1 = Abort 404 "Produit non trouvé" s1
       /\ produits_for_detection req s1 = [].
Proof.
  intros req.
  assert (Hclean : clean (boutique 10)) by reflexivity.
  assert (Hdelete : exists r s1,
            delete_produit req "p-riz" (boutique 10) = Respond r s1
            /\ produits_for_detection req s1 = []).
  { do 2 eexists. split; [vm_compute; reflexivity | reflexivity]. }
  destruct Hdelete as (r & s1 & Hdelete & Hnone).
  split; [exact Hclean|]. exists r, s1.
  split; [exact Hdelete|]. split; [ | exact Hnone].
  exact (proj1 (deleted_product_is_not_sold
                  (answering (PyDict riz_sale)) no_prompt no_prompt
                  model_client req "p-riz" (boutique 10) s1 r Hclean
                  Hdelete)
               req 2).
Defined.


Lemma payer_dette_keeps_balance_witness :
  let req := chat_request "Mamadou paid 2000" in
  let b' := state_after (payer_dette req "d-1" 2000 debt_books) in
  clean (fst debt_books)
  /\ unique_dette_ids (fst debt_books)
  /\ balanced debt_books
  /\ map dt_montant_restant (dettes (stored (fst b'))) = [3000]
  /\ map pd_montant_paye (snd b') = [2000]
  /\ balanced b' /\ unique_dette_ids (fst b') /\ clean (fst b').
Proof.
  intros req b'.
  assert (Hclean : clean (fst debt_books)) by reflexivity.
  assert (Hnd : unique_dette_ids (fst debt_books))
    by (repeat constructor; intros []).
  assert (Hbal : balanced debt_books) by (repeat constructor).
  repeat (split; [first [assumption | reflexivity]|]).
  exact (payer_dette_keeps_balance req "d-1" 2000 debt_books Hclean Hnd
           Hbal).
Defined.

Lemma payer_dette_settles_witness :
  let req := chat_request "Mamadou paid all" in
  clean (fst debt_books)
  /\ exists r b1,
       payer_dette req "d-1" 5000 debt_books = Respond r b1
       /\ dict_lookup "statut" r = Some (PyStr "soldee")
       /\ payer_dette req "d-1" 1 b1
          = Abort 400 "Montant supérieur à la dette restante" b1.
Proof.
  intros req.
  assert (Hclean : clean (fst debt_books)) by reflexivity.
  assert (Hpay : exists r b1,
            payer_dette req "d-1" 5000 debt_books = Respond r b1
            /\ dict_lookup "statut" r = Some (PyStr "soldee")).
  { do 2 eexists. split; [vm_compute; reflexivity | reflexivity]. }
  destruct Hpay as (r & b1 & Hpay & Hstatut).
  split; [exact Hclean|]. exists r, b1.
  split; [exact Hpay|]. split; [exact Hstatut|].
  destruct (payer_dette_settles req req "d-1" 5000 debt_books b1 r Hclean
              eq_refl Hpay)
    as (dette & Hq & _ & _ & _ & Hpaid).
  injection Hq as <-.
  exact (Hpaid eq_refl 1 ltac:(lia)).
Defined.

Lemma recorded_rows_satisfy_form_bounds_witness :
  let req := chat_request "sold 2 riz" in
  clean (boutique 10)
  /\ exists s' r,
       turn_on riz_sale req conversational_reply (boutique 10) = Ok (s', r)
       /\ map v_quantite (ventes (stored s')) = [2]
       /\ exists sales expenses debts,
            ventes (stored s')
            = (ventes (stored (boutique 10)) ++ sales)%list
            /\ depenses (stored s')
               = (depenses (stored (boutique 10)) ++ expenses)%list
            /\ dettes (stored s')
               = (dettes (stored (boutique 10)) ++ debts)%list
            /\ (List.length sales + List.length expenses
                + List.length debts <= 1)%nat
            /\ Forall (fun v => 1 <= v_quantite v
                                /\ sqlite_integer (v_montant_total v) = true
                                /\ v_boutique_id v = boutique_id req
                                /\ v_id v = row_uuid req) sales
            /\ Forall (fun d => 100 <= dp_montant d < 2 ^ 63
                                /\ 2 <= len (dp_categorie d)
                                /\ len (dp_description d) <= 500
                                /\ dp_boutique_id d = boutique_id req)
                      expenses
            /\ Forall (fun d => 500 <= dt_montant_initial d < 2 ^ 63
                                /\ 2 <= len (dt_nom_client d) <= 100
                                /\ dt_boutique_id d = boutique_id req)
                      debts.
Proof.
  intros req.
  assert (Hclean : clean (boutique 10)) by reflexivity.
  assert (Hturn : exists s' r,
            turn_on riz_sale req conversational_reply (boutique 10)
            = Ok (s', r)
            /\ map v_quantite (ventes (stored s')) = [2]).
  { do 2 eexists. split; [vm_compute; reflexivity | reflexivity]. }
  destruct Hturn as (s' & r & Hturn & Hq).
  split; [exact Hclean|]. exists s', r.
  split; [exact Hturn|]. split; [exact Hq|].
  exact (recorded_rows_satisfy_form_bounds _ _ _ _ req conversational_reply
           (boutique 10) s' r Hclean Hturn).
Defined.

Lemma recorded_transaction_is_audited_witness :
  let req := chat_request "sold 2 riz" in
  clean (boutique 10)
  /\ exists s' r,
       turn_on riz_sale req conversational_reply (boutique 10) = Ok (s', r)
       /\ map al_action (audit_logs (stored s')) = ["create_auto"]
       /\ ((s' = boutique 10
            /\ dict_lookup "transaction_recorded" r
               = dict_lookup "transaction_recorded" conversational_reply)
           \/ exists table_name new_values descriptor,
                ledger s' <> ledger (boutique 10)
                /\ audit_logs (stored s')
                   = (audit_logs (stored (boutique 10))
                      ++ [auto_audit req table_name new_values])%list
                /\ dict_lookup "source" new_values = Some (PyStr "cecile")
                /\ (table_name = "ventes" \/ table_name = "depenses"
                    \/ table_name = "dettes")
                /\ dict_lookup "transaction_recorded" r
                   = Some (PyDict descriptor)
                /\ dict_lookup "success" descriptor = Some (PyBool true)).
Proof.
  intros req.
  assert (Hclean : clean (boutique 10)) by reflexivity.
  assert (Hturn : exists s' r,
            turn_on riz_sale req conversational_reply (boutique 10)
            = Ok (s', r)
            /\ map al_action (audit_logs (stored s')) = ["create_auto"]).
  { do 2 eexists. split; [vm_compute; reflexivity | reflexivity]. }
  destruct Hturn as (s' & r & Hturn & Haudit).
  split; [exact Hclean|]. exists s', r.
  split; [exact Hturn|]. split; [exact Haudit|].
  exact (recorded_transaction_is_audited _ _ _ _ req conversational_reply
           (boutique 10) s' r Hclean Hturn).
Defined.


(** ** The JSON group of an answer *)

Lemma brace_free_app (a b : string) :
  brace_free (a ++ b) = brace_free a && brace_free b.
Proof.
  induction a as [ | c a IH]; [reflexivity|].
  cbn [append brace_free]. now rewrite IH, andb_assoc.
Qed.

Lemma find_open_free (a t : string) :
  brace_free a = true ->
  find_char "{"%char (a ++ t)
  = option_map (Nat.add (String.length a)) (find_char "{"%char t).
Proof.
  induction a as [ | c a IH]; intros H.
  - cbn. now destruct (find_char "{"%char t).
  - cbn [brace_free] in H. apply andb_true_iff in H as [Hc Ha].
    apply negb_true_iff, orb_false_iff in Hc as [Hc _].
    cbn [append find_char String.length]. rewrite Hc, (IH Ha).
    now destruct (find_char "{"%char t).
Qed.

Lemma drop_bytes_app (a t : string) (i : nat) :
  drop_bytes (String.length a + i) (a ++ t) = drop_bytes i t.
Proof. induction a as [ | c a IH]; [reflexivity | exact IH]. Qed.

Lemma search_braces_prefix (a t : string) :
  brace_free a = true -> search_braces (a ++ t) = search_braces t.
Proof.
  intros H. unfold search_braces. rewrite (find_open_free a t H).
  destruct (find_char "{"%char t) as [i|]; [ | reflexivity].
  cbn [option_map]. now rewrite drop_bytes_app.
Qed.

Lemma find_char_length (c : ascii) (s : string) (i : nat) :
  find_char c s = Some i -> (i < String.length s)%nat.
Proof.
  revert i. induction s as [ | d s IH]; intros i; cbn; [discriminate|].
  destruct (Ascii.eqb d c).
  - intros H. injection H as <-. lia.
  - destruct (find_char c s) as [j|]; [ | discriminate].
    intros H. injection H as <-. specialize (IH j eq_refl). lia.
Qed.

Lemma find_char_app (c : ascii) (t b : string) (i : nat) :
  find_char c t = Some i -> find_char c (t ++ b) = Some i.
Proof.
  revert i. induction t as [ | d t IH]; intros i; cbn; [discriminate|].
  destruct (Ascii.eqb d c); [auto|].
  destruct (find_char c t) as [j|]; [ | discriminate].
  intros H. injection H as <-. now rewrite (IH j eq_refl).
Qed.

Lemma find_open_none (s : string) :
  brace_free s = true -> find_char "{"%char s = None.
Proof.
  induction s as [ | c s IH]; [reflexivity|]. cbn [brace_free].
  intros H. apply andb_true_iff in H as [Hc Hs].
  apply negb_true_iff, orb_false_iff in Hc as [Hc _].
  cbn [find_char]. now rewrite Hc, (IH Hs).
Qed.

Lemma find_char_app_none (c : ascii) (t b : string) :
  find_char c t = None -> find_char c b = None ->
  find_char c (t ++ b) = None.
Proof.
  intros Ht Hb. induction t as [ | d t IH]; [exact Hb|].
  cbn in *. destruct (Ascii.eqb d c); [discriminate|].
  destruct (find_char c t); [discriminate|]. now rewrite IH.
Qed.

Lemma drop_bytes_app_l (i : nat) (t b : string) :
  (i <= String.length t)%nat ->
  drop_bytes i (t ++ b) = drop_bytes i t ++ b.
Proof.
  revert t. induction i as [ | i IH]; intros t H; [reflexivity|].
  destruct t as [ | c t]; [cbn in H; lia|].
  cbn [append drop_bytes]. apply IH. cbn in H. lia.
Qed.

Lemma rfind_close_free (rest b : string) :
  brace_free b = true ->
  rfind_char "}"%char (rest ++ b) = rfind_char "}"%char rest.
Proof.
  intros H. induction rest as [ | c rest IH].
  - cbn [append rfind_char]. induction b as [ | d b IHb]; [reflexivity|].
    cbn [brace_free] in H. apply andb_true_iff in H as [Hd Hb].
    apply negb_true_iff, orb_false_iff in Hd as [_ Hd].
    cbn [rfind_char]. now rewrite (IHb Hb), Hd.
  - cbn [append rfind_char]. now rewrite IH.
Qed.

Lemma rfind_char_length (c : ascii) (s : string) (j : nat) :
  rfind_char c s = Some j -> (j < String.length s)%nat.
Proof.
  revert j. induction s as [ | d s IH]; intros j; cbn; [discriminate|].
  destruct (rfind_char c s) as [i|].
  - intros H. injection H as <-. specialize (IH i eq_refl). lia.
  - destruct (Ascii.eqb d c); [ | discriminate].
    intros H. injection H as <-. lia.
Qed.

Lemma take_bytes_app (n : nat) (rest b : string) :
  (n <= String.length rest)%nat ->
  take_bytes n (rest ++ b) = take_bytes n rest.
Proof.
  unfold take_bytes. revert rest.
  induction n as [ | n IH]; intros rest H.
  - now destruct rest, b.
  - destruct rest as [ | c rest]; [cbn in H; lia|].
    cbn [append substring]. f_equal. apply IH. cbn in H. lia.
Qed.

Lemma search_braces_suffix (t b : string) :
  brace_free b = true -> search_braces (t ++ b) = search_braces t.
Proof.
  intros H. unfold search_braces.
  destruct (find_char "{"%char t) as [i|] eqn:Hopen.
  - rewrite (find_char_app _ _ b _ Hopen).
    apply find_char_length in Hopen.
    rewrite drop_bytes_app_l by lia.
    rewrite (rfind_close_free _ _ H).
    destruct (rfind_char "}"%char (drop_bytes i t)) as [j|] eqn:Hclose;
      [ | reflexivity].
    apply rfind_char_length in Hclose.
    now rewrite take_bytes_app by lia.
  - now rewrite (find_char_app_none _ _ _ Hopen (find_open_none _ H)).
Qed.

Lemma search_braces_wrapped (a t b : string) :
  brace_free a = true -> brace_free b = true ->
  search_braces (a ++ t ++ b) = search_braces t.
Proof.
  intros Ha Hb.
  now rewrite (search_braces_prefix a _ Ha), (search_braces_suffix t b Hb).
Qed.

(** What the stripping removes holds no brace. *)
Lemma is_space_no_brace (c : ascii) :
  is_space c = true -> is_brace c = false.
Proof.
  destruct c as [[] [] [] [] [] [] [] []]; vm_compute; intros H;
    first [reflexivity | discriminate H].
Qed.

Lemma is_continuation_no_brace (c : ascii) :
  is_continuation c = true -> is_brace c = false.
Proof.
  destruct c as [[] [] [] [] [] [] [] []]; vm_compute; intros H;
    first [reflexivity | discriminate H].
Qed.

Lemma lstrip_prefix (s : string) :
  exists a, s = a ++ lstrip s /\ brace_free a = true.
Proof.
  induction s as [ | c s (a & Es & Ha)]; [now exists ""|].
  cbn [lstrip]. destruct (is_space c) eqn:E; [ | now exists ""].
  exists (String c a). cbn [append brace_free].
  rewrite <- Es, (is_space_no_brace c E), Ha. auto.
Qed.

Lemma rstrip_suffix (s : string) :
  exists b, s = rstrip s ++ b /\ brace_free b = true.
Proof.
  induction s as [ | c s (b & Es & Hb)]; [now exists ""|].
  cbn [rstrip]. destruct (rstrip s) as [ | d r] eqn:Er.
  - cbn [append] in Es. subst b.
    destruct (is_space c) eqn:E.
    + exists (String c s). cbn [append brace_free].
      now rewrite (is_space_no_brace c E), Hb.
    + now exists s.
  - exists b. cbn [append]. now rewrite Es at 1.
Qed.

Lemma strip_wrapped (s : string) :
  exists a b, s = a ++ strip s ++ b
              /\ brace_free a = true /\ brace_free b = true.
Proof.
  unfold strip.
  destruct (lstrip_prefix s) as (a & Ea & Ha).
  destruct (rstrip_suffix (lstrip s)) as (b & Eb & Hb).
  exists a, b. now rewrite <- Eb, <- Ea.
Qed.

Lemma string_app_nil_r (s : string) : s ++ "" = s.
Proof. induction s as [ | c s IH]; cbn; [ | rewrite IH]; reflexivity. Qed.

Lemma prefix_app (p s : string) :
  String.prefix p s = true -> exists rest, s = p ++ rest.
Proof.
  revert s. induction p as [ | c p IH]; intros s H; [now exists s|].
  destruct s as [ | d s]; [discriminate|]. cbn in H.
  destruct (ascii_dec c d) as [<- | ]; [ | discriminate].
  destruct (IH s H) as (rest & ->). now exists rest.
Qed.

Lemma skip_continuation_prefix (s : string) :
  exists a, s = a ++ skip_continuation s /\ brace_free a = true.
Proof.
  induction s as [ | c s (a & Es & Ha)]; [now exists ""|].
  cbn [skip_continuation]. destruct (is_continuation c) eqn:E;
    [ | now exists ""].
  exists (String c a). cbn [append brace_free].
  rewrite <- Es, (is_continuation_no_brace c E), Ha. auto.
Qed.

Lemma drop_bytes_split (n : nat) (s : string) :
  exists pre, s = pre ++ drop_bytes n s.
Proof.
  revert s. induction n as [ | n IH]; intros s; [now exists ""|].
  destruct s as [ | c s]; [now exists ""|].
  destruct (IH s) as (pre & E). exists (String c pre).
  cbn [append drop_bytes]. now rewrite <- E.
Qed.

Lemma chars_app (a b : string) : chars (a ++ b) = (chars a + chars b)%nat.
Proof.
  induction a as [ | c a IH]; [reflexivity|].
  cbn [append chars]. rewrite IH. now destruct (is_continuation c).
Qed.

Lemma str_take_app (pre b : string) :
  (forall c b', b = String c b' -> is_continuation c = false) ->
  str_take (chars pre) (pre ++ b) = pre.
Proof.
  intros Hb. induction pre as [ | c pre IH].
  - cbn [chars append]. destruct b as [ | d b']; [reflexivity|].
    cbn [str_take]. now rewrite (Hb d b' eq_refl).
  - cbn [chars append str_take].
    destruct (is_continuation c); now rewrite IH.
Qed.

Lemma strip_fences_wrapped (x : string) :
  exists a b, x = a ++ strip_fences x ++ b
              /\ brace_free a = true /\ brace_free b = true.
Proof.
  assert (Hdrop : forall (p : string) (n : nat) (y : string),
            brace_free p = true ->
            (forall rest, str_drop n (p ++ rest) = skip_continuation rest) ->
            exists a, y = a ++ (if startswith p y then str_drop n y else y)
                      /\ brace_free a = true).
  { intros p n y Hp Hn. unfold startswith.
    destruct (String.prefix p y) eqn:E; [ | now exists ""].
    apply prefix_app in E as (rest & ->). rewrite Hn.
    destruct (skip_continuation_prefix rest) as (a & Ea & Ha).
    exists (p ++ a). rewrite brace_free_app, Hp, Ha.
    split; [ | reflexivity]. rewrite string_app_assoc. now rewrite <- Ea. }
  unfold strip_fences.
  destruct (Hdrop "```json" 7%nat x eq_refl ltac:(reflexivity))
    as (a1 & E1 & H1).
  set (x1 := if startswith "```json" x then str_drop 7 x else x) in *.
  destruct (Hdrop "```" 3%nat x1 eq_refl ltac:(reflexivity))
    as (a2 & E2 & H2).
  set (x2 := if startswith "```" x1 then str_drop 3 x1 else x1) in *.
  assert (H3 : exists b, x2 = (if endswith "```" x2
                               then str_take (chars x2 - 3) x2 else x2)
                              ++ b
                         /\ brace_free b = true).
  { destruct (endswith "```" x2) eqn:E.
    - unfold endswith in E. apply andb_true_iff in E as [_ E].
      apply String.eqb_eq in E.
      destruct (drop_bytes_split (String.length x2 - String.length "```")
                  x2) as (pre & Ex2).
      rewrite E in Ex2. exists "```". split; [ | reflexivity].
      rewrite Ex2 at 1 2 3. rewrite chars_app.
      change (chars "```") with 3%nat.
      replace (chars pre + 3 - 3)%nat with (chars pre) by lia.
      rewrite str_take_app; [reflexivity|].
      intros c b' Hb. now injection Hb as <- _.
    - exists "". split; [now rewrite string_app_nil_r | reflexivity]. }
  destruct H3 as (b & E3 & H3).
  exists (a1 ++ a2), b. rewrite brace_free_app, H1, H2, H3.
  split; [ | auto].
  rewrite string_app_assoc, <- E3, <- E2. exact E1.
Qed.

(** X13. Code fences and white space around the answer of the model
    never change what is decoded: the group handed to [json.loads] is the
    span from the first opening brace to the last closing brace of the
    answer itself, and it stays the same when the answer is wrapped in
    any text without braces. *)
Theorem fences_do_not_change_the_group :
  (forall response_text,
     json_group response_text
     = search_braces (text_or_empty response_text))
  /\ (forall a t b,
        brace_free a = true -> brace_free b = true ->
        json_group (Some (a ++ t ++ b)) = json_group (Some t)).
Proof.
  assert (H : forall response_text,
            json_group response_text
            = search_braces (text_or_empty response_text)).
  { intros response_text. unfold json_group.
    fold (text_or_empty response_text).
    generalize (text_or_empty response_text). intros t.
    destruct (strip_wrapped t) as (a & b & Et & Ha & Hb).
    destruct (strip_fences_wrapped (strip t)) as (a' & b' & Es & Ha' & Hb').
    rewrite Et at 2. rewrite (search_braces_wrapped _ _ _ Ha Hb).
    rewrite Es at 2. now rewrite (search_braces_wrapped _ _ _ Ha' Hb'). }
  split; [exact H|].
  intros a t b Ha Hb. rewrite !H. cbn [text_or_empty].
  now apply search_braces_wrapped.
Qed.

Lemma fences_do_not_change_the_group_witness :
  brace_free "Here it is: " = true
  /\ brace_free " Anything else?" = true
  /\ json_group (Some "```json{}```") = Some "{}"
  /\ json_group (Some ("Here it is: " ++ "```json{}```"
                       ++ " Anything else?"))
     = json_group (Some "```json{}```").
Proof.
  split; [reflexivity|]. split; [reflexivity|]. split; [reflexivity|].
  exact (proj2 fences_do_not_change_the_group "Here it is: "
           "```json{}```" " Anything else?" eq_refl eq_refl).
Defined.

(** ** A chat turn stays in its account *)

Lemma of_account_app {A : Type} (owner : A -> string) (boutique : string)
    (rows : list A) (x : A) :
  owner x <> boutique ->
  of_account owner boutique (rows ++ [x]) = of_account owner boutique rows.
Proof.
  intros H. unfold of_account. rewrite filter_app. cbn [filter].
  apply String.eqb_neq in H. rewrite H. apply app_nil_r.
Qed.

Lemma of_account_update_stock (boutique : string) (p : Produit) (q : Z)
    (rows : list Produit) :
  NoDup (map p_id rows) -> In p rows -> p_boutique_id p <> boutique ->
  of_account p_boutique_id boutique (update_stock (p_id p) q rows)
  = of_account p_boutique_id boutique rows.
Proof.
  intros Hnd Hin Hp. unfold of_account, update_stock.
  assert (H : forall x, In x rows ->
            (if String.eqb (p_id x) (p_id p) then with_stock x q else x) = x
            \/ String.eqb (p_boutique_id x) boutique = false
               /\ String.eqb (p_id x) (p_id p) = true).
  { intros x Hx. destruct (String.eqb_spec (p_id x) (p_id p)) as [E | E];
      [right | now left].
    rewrite (NoDup_map_injective p_id rows x p Hnd Hx Hin E).
    split; [now apply String.eqb_neq | reflexivity]. }
  clear Hnd Hin. induction rows as [ | x rows IH]; [reflexivity|].
  cbn [map filter].
  rewrite IH by (intros y Hy; apply H; now right).
  destruct (H x (or_introl eq_refl)) as [-> | [Hb ->]]; [reflexivity|].
  cbn [with_stock p_boutique_id]. now rewrite Hb.
Qed.

(** X14. A chat turn writes in the account of its request only: for any
    other account, the products, sales, expenses and debts are the same
    before and after the turn, product ids being unique. *)
Theorem chat_turn_stays_in_its_account
    (json_loads : string -> outcome pyval)
    (prompt_en prompt_fr : string -> string -> string)
    (get_client : option Client)
    (req : Request) (result : pydict) (s s' : Session) (r : pydict)
    (other : string) :
  clean s ->
  unique_produit_ids s ->
  chatbot_autorecord json_loads prompt_en prompt_fr get_client req result s
  = Ok (s', r) ->
  other <> boutique_id req ->
  of_account p_boutique_id other (produits (stored s'))
  = of_account p_boutique_id other (produits (stored s))
  /\ of_account v_boutique_id other (ventes (stored s'))
     = of_account v_boutique_id other (ventes (stored s))
  /\ of_account dp_boutique_id other (depenses (stored s'))
     = of_account dp_boutique_id other (depenses (stored s))
  /\ of_account dt_boutique_id other (dettes (stored s'))
     = of_account dt_boutique_id other (dettes (stored s)).
Proof.
  intros Hclean Hnd Hturn Hother.
  apply turn_ledger_cases in Hturn; [ | exact Hclean].
  destruct Hturn
    as [-> | [(nom & p & q & Hfind & _ & Hledger & _)
             | [(c & m & d & _ & _ & Hledger)
               | (c & m & _ & _ & Hledger)]]];
    try (unfold ledger in Hledger; injection Hledger as -> -> -> ->);
    auto.
  - apply find_produit_row in Hfind as (Hin & Hb & _).
    repeat split; auto.
    + apply of_account_update_stock; auto. rewrite Hb. congruence.
    + apply of_account_app. cbn. congruence.
  - repeat split; auto. apply of_account_app. cbn. congruence.
  - repeat split; auto. apply of_account_app. cbn. congruence.
Qed.

Lemma chat_turn_stays_in_its_account_witness :
  let req := chat_request "sold 2 riz" in
  clean (boutique 10)
  /\ unique_produit_ids (boutique 10)
  /\ "b2" <> boutique_id req
  /\ exists s' r,
       turn_on riz_sale req conversational_reply (boutique 10) = Ok (s', r)
       /\ of_account v_boutique_id "b1" (ventes (stored s'))
          = [new_vente req (riz 10) 2]
       /\ of_account p_boutique_id "b2" (produits (stored s'))
          = of_account p_boutique_id "b2" (produits (stored (boutique 10)))
       /\ of_account v_boutique_id "b2" (ventes (stored s'))
          = of_account v_boutique_id "b2" (ventes (stored (boutique 10)))
       /\ of_account dp_boutique_id "b2" (depenses (stored s'))
          = of_account dp_boutique_id "b2"
              (depenses (stored (boutique 10)))
       /\ of_account dt_boutique_id "b2" (dettes (stored s'))
          = of_account dt_boutique_id "b2" (dettes (stored (boutique 10))).
Proof.
  intros req.
  assert (Hclean : clean (boutique 10)) by reflexivity.
  assert (Hnd : unique_produit_ids (boutique 10))
    by (repeat constructor; intros []).
  assert (Hother : "b2" <> boutique_id req) by discriminate.
  assert (Hturn : exists s' r,
            turn_on riz_sale req conversational_reply (boutique 10)
            = Ok (s', r)
            /\ of_account v_boutique_id "b1" (ventes (stored s'))
               = [new_vente req (riz 10) 2]).
  { do 2 eexists. split; [vm_compute; reflexivity | reflexivity]. }
  destruct Hturn as (s' & r & Hturn & Hsale).
  repeat (split; [assumption|]). exists s', r.
  split; [exact Hturn|]. split; [exact Hsale|].
  exact (chat_turn_stays_in_its_account _ _ _ _ req conversational_reply
           (boutique 10) s' r "b2" Hclean Hnd Hturn Hother).
Defined.

(** ** The lock of the login *)





